(** * StreamX stream service: a shallow embedding of [services/streamService.ts]

    The service aggregates video metadata from several providers.  This
    file embeds its helpers (formatters), the transport ([nativeFetch]),
    the endpoint rotator ([fetchWithRotation]), the data mappers and the
    four public operations, and proves properties of them.

    JavaScript values are an inductive type, numbers are binary64 floats,
    asynchronous functions are state-passing functions over a [World]
    that records every request sent and holds the rotation cursor, and a
    rejected promise or thrown exception is the [Throw] outcome. *)

From Stdlib Require Import ZArith List String Ascii Bool Lia.
From Stdlib Require Import Numbers.DecimalString.
From Stdlib Require Import Floats.PrimFloat Floats.FloatOps Floats.SpecFloat.
Import ListNotations.

Local Open Scope list_scope.
Local Open Scope string_scope.
Set Warnings "-register-all".

(** ** JavaScript values and the built-ins the service calls *)

Module JS.

(** A parsed JSON payload, plus [undefined] (what reading a missing
    property gives). *)
Inductive value : Type :=
| VUndefined
| VNull
| VBool (b : bool)
| VNum (n : float)
| VStr (s : string)
| VArr (items : list value)
| VObj (fields : list (string * value)).

Inductive error : Type :=
| TypeError
| SyntaxError
| URIError
| Error (message : string).

(** The result of running a piece of code: a value, or an exception. *)
Inductive outcome (A : Type) : Type :=
| Ret (a : A)
| Throw (e : error).
Arguments Ret {A} a.
Arguments Throw {A} e.

Definition obind {A B} (x : outcome A) (f : A -> outcome B) : outcome B :=
  match x with
  | Ret a => f a
  | Throw e => Throw e
  end.

Fixpoint omap {A B} (f : A -> outcome B) (l : list A) : outcome (list B) :=
  match l with
  | [] => Ret []
  | x :: l' => obind (f x) (fun y => obind (omap f l') (fun ys => Ret (y :: ys)))
  end.

Fixpoint ofilter {A} (f : A -> outcome bool) (l : list A) : outcome (list A) :=
  match l with
  | [] => Ret []
  | x :: l' =>
      obind (f x) (fun b =>
      obind (ofilter f l') (fun ys => Ret (if b then x :: ys else ys)))
  end.

(** [Array.prototype.find]: the first element on which the callback holds,
    [None] standing for [undefined]. *)
Fixpoint ofind {A} (f : A -> outcome bool) (l : list A) : outcome (option A) :=
  match l with
  | [] => Ret None
  | x :: l' => obind (f x) (fun b => if b then Ret (Some x) else ofind f l')
  end.

Notation "'let!' x ':=' e 'in' k" := (obind e (fun x => k))
  (at level 10, x name, e at level 100, k at level 200).

(** *** Numbers *)

Definition decimal (z : Z) : string :=
  NilZero.string_of_uint (N.to_uint (Z.to_N z)).

(** An integer as a float; exact below 2^53. *)
Definition of_Z (z : Z) : float :=
  match z with
  | Z0 => zero
  | Zpos p => SF2Prim (S754_finite false p 0)
  | Zneg p => SF2Prim (S754_finite true p 0)
  end.

(** [Math.floor]. *)
Definition floor (x : float) : float :=
  match Prim2SF x with
  | S754_finite s m e =>
      if (0 <=? e)%Z then x
      else
        let d := (2 ^ (- e))%Z in
        let q := (Zpos m / d)%Z in
        if s then (if (Zpos m mod d =? 0)%Z then of_Z (- q) else of_Z (- (q + 1)))
        else of_Z q
  | _ => x
  end.

(** The [%] operator on numbers: the remainder has the sign of the
    dividend and is computed exactly. *)
Definition fmod (x y : float) : float :=
  match Prim2SF x, Prim2SF y with
  | S754_nan, _ | _, S754_nan => nan
  | S754_infinity _, _ => nan
  | _, S754_zero _ => nan
  | S754_zero _, _ => x
  | S754_finite _ _ _, S754_infinity _ => x
  | S754_finite sx mx ex, S754_finite _ my ey =>
      let e0 := Z.min ex ey in
      let X := (Zpos mx * 2 ^ (ex - e0))%Z in
      let Y := (Zpos my * 2 ^ (ey - e0))%Z in
      match (X mod Y)%Z with
      | Zpos r => SF2Prim (S754_finite sx r e0)
      | _ => if sx then neg_zero else zero
      end
  end.

(** The part of [Number.prototype.toString] and of the engine's string
    parsing that the model takes from the engine: see [NumberToString]
    and [ToNumber]. *)
Record Engine : Type := {
  (** [Number::toString] on a finite number that is not an integer
      below 2^53 (shortest round-trip digits). *)
  NumberToStringGeneral : float -> string;
  (** [StringToNumber]: the numeric value of a string. *)
  StringToNumber : string -> float;
  (** [new Date(v).toLocaleDateString()] in the host's locale, for a
      primitive [v]. *)
  toLocaleDateString : value -> string;
  (** [encodeURIComponent]; [None] when it throws URIError. *)
  encodeURIComponent : string -> option string;
  (** [String.prototype.toLowerCase]. *)
  toLowerCase : string -> string
}.

Section WithEngine.
Variable E : Engine.

(** [Number::toString] (radix 10).  Below 2^53 the doubles are spaced
    by at most one, so the shortest digits that read back as an integer
    are its own decimal digits; from 2^53 on they need not be, and the
    digits are the engine's. *)
Definition NumberToString (x : float) : string :=
  match Prim2SF x with
  | S754_nan => "NaN"
  | S754_zero _ => "0"
  | S754_infinity s => if s then "-Infinity" else "Infinity"
  | S754_finite s m e =>
      if (0 <=? e)%Z then
        let n := (Zpos m * 2 ^ e)%Z in
        if (n <? 2 ^ 53)%Z then (if s then "-" else "") ++ decimal n
        else NumberToStringGeneral E x
      else if (Zpos m mod 2 ^ (- e) =? 0)%Z then
        (if s then "-" else "") ++ decimal (Zpos m / 2 ^ (- e))
      else NumberToStringGeneral E x
  end.

(** [Number.prototype.toFixed(1)]: the integer [n] with [n / 10] closest
    to the exact value of [x], the larger one on a tie. *)
Definition toFixed1 (x : float) : string :=
  match Prim2SF x with
  | S754_nan => "NaN"
  | S754_zero _ => "0.0"
  | S754_infinity s => if s then "-Infinity" else "Infinity"
  | S754_finite s m e =>
      if (0 <=? e)%Z then
        let v := (Zpos m * 2 ^ e)%Z in
        if (v <? 10 ^ 21)%Z then (if s then "-" else "") ++ decimal v ++ ".0"
        else NumberToString x
      else
        let n := ((20 * Zpos m + 2 ^ (- e)) / 2 ^ (1 - e))%Z in
        (if s then "-" else "") ++ decimal (n / 10) ++ "." ++ decimal (n mod 10)
  end.

(** *** Coercions *)

(** [ToBoolean]. *)
Definition truthy (v : value) : bool :=
  match v with
  | VUndefined | VNull => false
  | VBool b => b
  | VNum n => negb (is_zero n || is_nan n)
  | VStr s => negb (s =? "")
  | VArr _ | VObj _ => true
  end.

Fixpoint has_key (k : string) (fields : list (string * value)) : bool :=
  match fields with
  | [] => false
  | (k', _) :: rest => (k' =? k) || has_key k rest
  end.

(** [ToString], which is also what [v.toString()] returns on a value
    other than [undefined] and [null].  An array joins its elements with
    commas.  A parsed object has no callable [toString] of its own when
    it has a key of that name, and the conversion then throws. *)
Fixpoint ToString (v : value) : outcome string :=
  match v with
  | VUndefined => Ret "undefined"
  | VNull => Ret "null"
  | VBool b => Ret (if b then "true" else "false")
  | VNum n => Ret (NumberToString n)
  | VStr s => Ret s
  | VArr items =>
      let elt x := match x with VUndefined | VNull => Ret "" | _ => ToString x end in
      (fix join (l : list value) : outcome string :=
         match l with
         | [] => Ret ""
         | [x] => elt x
         | x :: l' => let! a := elt x in let! b := join l' in Ret (a ++ "," ++ b)
         end) items
  | VObj fields =>
      if has_key "toString" fields then Throw TypeError else Ret "[object Object]"
  end.

(** [ToPrimitive]: an array or object converts through its [toString]. *)
Definition ToPrimitive (v : value) : outcome value :=
  match v with
  | VArr _ | VObj _ => let! s := ToString v in Ret (VStr s)
  | _ => Ret v
  end.

(** [ToNumber]. *)
Definition ToNumber (v : value) : outcome float :=
  match v with
  | VUndefined => Ret nan
  | VNull => Ret zero
  | VBool b => Ret (if b then one else zero)
  | VNum n => Ret n
  | VStr s => Ret (StringToNumber E s)
  | VArr _ | VObj _ => let! s := ToString v in Ret (StringToNumber E s)
  end.

(** [v.toString()]. *)
Definition call_toString (v : value) : outcome string :=
  match v with
  | VUndefined | VNull => Throw TypeError
  | _ => ToString v
  end.

(** [a || b]. *)
Definition or_else (a b : value) : value := if truthy a then a else b.

(** *** Property access *)

Fixpoint lookup (k : string) (fields : list (string * value)) : value :=
  match fields with
  | [] => VUndefined
  | (k', v) :: rest => if k' =? k then v else lookup k rest
  end.

(** [v.k].  Reading a property of [undefined] or [null] throws; no key
    the service reads is an inherited property, so every other
    non-object gives [undefined]. *)
Definition get (v : value) (k : string) : outcome value :=
  match v with
  | VUndefined | VNull => Throw TypeError
  | VObj fields => Ret (lookup k fields)
  | _ => Ret VUndefined
  end.

(** [v?.k]. *)
Definition get_opt (v : value) (k : string) : outcome value :=
  match v with
  | VUndefined | VNull => Ret VUndefined
  | _ => get v k
  end.

(** [v === s] for a string [s], and [v === false]. *)
Definition is_str (v : value) (s : string) : bool :=
  match v with
  | VStr t => t =? s
  | _ => false
  end.

Definition is_false (v : value) : bool :=
  match v with
  | VBool false => true
  | _ => false
  end.

Definition nullish (v : value) : bool :=
  match v with
  | VUndefined | VNull => true
  | _ => false
  end.

(** *** Strings *)

(** [s.includes(t)]. *)
Fixpoint includes (s t : string) : bool :=
  String.prefix t s ||
  match s with
  | EmptyString => false
  | String _ s' => includes s' t
  end.

(** [s.split(sep)] for a non-empty separator: [skip] counts the
    characters of a separator still to drop, [cur] is the piece being
    read, in reverse. *)
Fixpoint split_go (sep s : string) (skip : nat) (cur : string) : list string :=
  match s with
  | EmptyString => [cur]
  | String c s' =>
      match skip with
      | S k => split_go sep s' k cur
      | O =>
          if String.prefix sep s
          then cur :: split_go sep s' (String.length sep - 1) ""
          else split_go sep s' 0 (cur ++ String c "")
      end
  end.

Definition split (s sep : string) : list string := split_go sep s 0 "".

(** [s.padStart(2, '0')]. *)
Definition padStart2 (s : string) : string :=
  match String.length s with
  | 0 => "00"
  | 1 => "0" ++ s
  | _ => s
  end.

End WithEngine.

(** An engine for strings of ASCII characters: lower-casing maps A-Z to
    a-z, [encodeURIComponent] escapes every character that is not
    unreserved.  Used to evaluate the service on concrete inputs. *)
Definition ascii_lower (c : ascii) : ascii :=
  let n := nat_of_ascii c in
  if (65 <=? n)%nat && (n <=? 90)%nat then ascii_of_nat (n + 32) else c.

Definition hex_digit (n : nat) : ascii :=
  if (n <? 10)%nat then ascii_of_nat (48 + n) else ascii_of_nat (55 + n).

Definition unreserved (c : ascii) : bool :=
  let n := nat_of_ascii c in
  ((48 <=? n) && (n <=? 57) || (65 <=? n) && (n <=? 90) || (97 <=? n) && (n <=? 122))%nat
  || existsb (Ascii.eqb c) (list_ascii_of_string "-_.!~*'()").

Fixpoint percent_encode (s : string) : string :=
  match s with
  | EmptyString => ""
  | String c s' =>
      (if unreserved c then String c ""
       else String "%" (String (hex_digit (nat_of_ascii c / 16))
                          (String (hex_digit (nat_of_ascii c mod 16)) "")))
      ++ percent_encode s'
  end.

Definition asciiEngine : Engine := {|
  NumberToStringGeneral := fun _ => "";
  StringToNumber := fun _ => nan;
  toLocaleDateString := fun _ => "Invalid Date";
  encodeURIComponent := fun s => Some (percent_encode s);
  toLowerCase := fun s => string_of_list_ascii (map ascii_lower (list_ascii_of_string s))
|}.

End JS.

Import JS.

(** ** Data model *)

(** Modelled from the spec: the declaration of [VideoData] lives in
    [../types], which is not among the sources.  Section 3 of the
    specification lists its fields; the service reads [id], [title] and
    [streamUrl] of the mock records, and treats [streamUrl] and
    [isShort] as optional. *)
Record VideoData : Type := {
  id : string;
  title : string;
  uploader : string;
  views : string;
  date : string;
  duration : string;
  thumbnail : string;
  platform : string;
  avatar : string;
  streamUrl : option string;
  isShort : option bool
}.

(** The object a mapper builds at run time.  The payload is typed [any],
    so a field holds whatever the expression written for it evaluates
    to, [undefined] included. *)
Record VideoObject : Type := {
  o_id : value;
  o_title : value;
  o_uploader : value;
  o_views : value;
  o_date : value;
  o_duration : value;
  o_thumbnail : value;
  o_platform : value;
  o_avatar : value;
  o_isShort : value;
  o_streamUrl : value
}.

Definition of_option {A} (f : A -> value) (x : option A) : value :=
  match x with
  | Some a => f a
  | None => VUndefined
  end.

(** A record of the constants module, as the object it is at run time. *)
Definition box (v : VideoData) : VideoObject := {|
  o_id := VStr (id v);
  o_title := VStr (title v);
  o_uploader := VStr (uploader v);
  o_views := VStr (views v);
  o_date := VStr (date v);
  o_duration := VStr (duration v);
  o_thumbnail := VStr (thumbnail v);
  o_platform := VStr (platform v);
  o_avatar := VStr (avatar v);
  o_isShort := of_option VBool (isShort v);
  o_streamUrl := of_option VStr (streamUrl v)
|}.

(** The four mock sets imported from [../constants]; that module is not
    among the sources, so its contents are a parameter of the service. *)
Record Constants : Type := {
  MOCK_VIDEOS : list VideoData;
  MOCK_TIKTOK_VIDEOS : list VideoData;
  MOCK_RUMBLE_VIDEOS : list VideoData;
  MOCK_PEERTUBE_VIDEOS : list VideoData
}.

(** ** Configuration *)

Definition PIPED_INSTANCES : list string := [
  "https://pipedapi.kavin.rocks";
  "https://api.piped.vic.click";
  "https://piped-api.garudalinux.org";
  "https://pipedapi.drgns.space";
  "https://pa.il.ax";
  "https://pipedapi.system41.site";
  "https://api.piped.privacy.com.de"
].

Definition PEERTUBE_SEARCH_API : string := "https://sepiasearch.org/api/v1/search/videos".
Definition DM_API_BASE : string := "https://api.dailymotion.com".
Definition CORS_PROXY : string := "https://cors-anywhere.herokuapp.com/".

(** ** The host: what the service observes and does *)

(** Everything a call does that the outside can see, newest first. *)
Inductive event : Type :=
| NativeGet (url : string)      (* CapacitorHttp.get({url, headers}) *)
| WebFetch (url : string)       (* fetch(url) *)
| Sleep (ms : nat)              (* setTimeout(..., ms) awaited *)
| ConsoleError (tag : string).  (* console.error(tag, error) *)

(** What [CapacitorHttp.get] settles to. *)
Inductive native_response : Type :=
| NativeRejected
| NativeResponse (status : Z) (data : value).

(** What [fetch] settles to; [json] is [None] when [res.json()] rejects. *)
Inductive fetch_response : Type :=
| FetchRejected
| FetchResponse (status : Z) (json : option value).

(** [res.ok]. *)
Definition ok (status : Z) : bool := (200 <=? status)%Z && (status <? 300)%Z.

(** The platform the code runs on.  A reply may depend on the URL and on
    everything that happened before the request. *)
Record Host : Type := {
  isNativePlatform : bool;
  hasCapacitorHttp : bool;
  capacitorHttpGet : list event -> string -> native_response;
  fetch : list event -> string -> fetch_response
}.

(** The module-level cursor and the trace of events so far. *)
Record World : Type := {
  activeInstanceIndex : nat;
  trace : list event
}.

Definition emit (e : event) (w : World) : World :=
  {| activeInstanceIndex := activeInstanceIndex w; trace := e :: trace w |}.

Definition set_active (i : nat) (w : World) : World :=
  {| activeInstanceIndex := i; trace := trace w |}.

(** An asynchronous function: it runs from a world to an outcome and a
    new world. *)
Definition M (A : Type) : Type := World -> outcome A * World.

Definition ret {A} (a : A) : M A := fun w => (Ret a, w).
Definition throw {A} (e : error) : M A := fun w => (Throw e, w).

Definition bind {A B} (m : M A) (f : A -> M B) : M B :=
  fun w =>
    match m w with
    | (Ret a, w') => f a w'
    | (Throw e, w') => (Throw e, w')
    end.

(** [try { m } catch (e) { h e }]. *)
Definition try_catch {A} (m : M A) (h : error -> M A) : M A :=
  fun w =>
    match m w with
    | (Ret a, w') => (Ret a, w')
    | (Throw e, w') => h e w'
    end.

(** A synchronous computation run inside an asynchronous function. *)
Definition lift {A} (x : outcome A) : M A := fun w => (x, w).

Notation "x <- m ;; k" := (bind m (fun x => k))
  (at level 61, m at next level, right associativity).
Notation "m ;;; k" := (bind m (fun _ => k))
  (at level 61, right associativity).

Definition sleep (ms : nat) : M unit := fun w => (Ret tt, emit (Sleep ms) w).
Definition console_error (tag : string) : M unit :=
  fun w => (Ret tt, emit (ConsoleError tag) w).

(** ** The service *)

Section Service.
Variable E : Engine.
Variable H : Host.
Variable C : Constants.

(** *** Helpers *)

(** The parameter is declared [number]; the callers pass fields of an
    [any] payload, so the functions are embedded on every value. *)
Definition formatViews (views : value) : outcome string :=
  if negb (truthy views) then Ret "0"
  else
    let! x := ToNumber E views in
    if (1000000 <=? x)%float then Ret (toFixed1 E (x / 1000000)%float ++ "M")
    else if (1000 <=? x)%float then Ret (toFixed1 E (x / 1000)%float ++ "K")
    else call_toString E views.

Definition formatDuration (seconds : value) : outcome string :=
  if negb (truthy seconds) then Ret "00:00"
  else
    let! x := ToNumber E seconds in
    let h := floor (x / 3600)%float in
    let m := floor (fmod x 3600 / 60)%float in
    let s := fmod x 60 in
    if (0 <? h)%float
    then Ret (NumberToString E h ++ ":" ++ padStart2 (NumberToString E m)
              ++ ":" ++ padStart2 (NumberToString E s))
    else Ret (NumberToString E m ++ ":" ++ padStart2 (NumberToString E s)).

(** *** Transport *)

Definition CapacitorHttp_get (url : string) : M native_response :=
  fun w => (Ret (capacitorHttpGet H (trace w) url), emit (NativeGet url) w).

Definition window_fetch (url : string) : M fetch_response :=
  fun w => (Ret (fetch H (trace w) url), emit (WebFetch url) w).

(** The direct attempt of web mode: [fetch], then [res.json()] when
    [res.ok], else a throw. *)
Definition direct_fetch (url : string) : M value :=
  res <- window_fetch url ;;
  match res with
  | FetchRejected => throw TypeError
  | FetchResponse status json =>
      if ok status
      then match json with
           | Some data => ret data
           | None => throw SyntaxError
           end
      else throw (Error ("Direct fetch failed: " ++ decimal status))
  end.

(** The proxy attempt: [Some data] when it returns from [nativeFetch],
    [None] when control falls through to the final throw. *)
Definition proxy_fetch (url : string) : M (option value) :=
  res <- window_fetch (CORS_PROXY ++ url) ;;
  match res with
  | FetchResponse status (Some data) => if ok status then ret (Some data) else ret None
  | _ => ret None
  end.

Definition nativeFetch (url : string) : M value :=
  if isNativePlatform H && hasCapacitorHttp H then
    response <- CapacitorHttp_get url ;;
    match response with
    | NativeRejected => throw (Error "CapacitorHttp request failed")
    | NativeResponse status data =>
        if (200 <=? status)%Z && (status <? 300)%Z then ret data
        else throw (Error ("Native HTTP Error: " ++ decimal status))
    end
  else
    try_catch (direct_fetch url) (fun _ =>
      r <- proxy_fetch url ;;
      match r with
      | Some data => ret data
      | None => throw (Error "Web Fetch Failed")
      end).

(** *** Rotation *)

Definition maxAttempts : nat := 3.

(** The [while (attempts < maxAttempts)] loop; [left] is
    [maxAttempts - attempts]. *)
Fixpoint rotation_loop (path : string) (left attempts : nat) : M value :=
  match left with
  | O => throw (Error "All API instances failed.")
  | S left' =>
      fun w =>
        let currentIndex :=
          (activeInstanceIndex w + attempts) mod List.length PIPED_INSTANCES in
        let instance := nth currentIndex PIPED_INSTANCES "" in
        match nativeFetch (instance ++ path) w with
        | (Ret data, w') =>
            (Ret data,
             if (activeInstanceIndex w' =? currentIndex)%nat then w'
             else set_active currentIndex w')
        | (Throw _, w') => rotation_loop path left' (S attempts) w'
        end
  end.

Definition fetchWithRotation (path : string) : M value :=
  rotation_loop path maxAttempts 0.

(** *** Data mappers *)

(** [x.map(...)], [x.filter(...)] and [x.find(...)] exist on arrays only;
    on anything else the call throws. *)
Definition as_array (v : value) : outcome (list value) :=
  match v with
  | VArr items => Ret items
  | _ => Throw TypeError
  end.

(** [parts[1]]. *)
Definition second (parts : list string) : value :=
  match parts with
  | _ :: s :: _ => VStr s
  | _ => VUndefined
  end.

(** The object literal that [getTrending] and [search] build from one
    entry of the rotation-capable provider. *)
Definition youtubeRecord (v : value) : outcome VideoObject :=
  let! url := get v "url" in
  let! parts := match url with
                | VStr s => Ret (split s "v=")
                | _ => Throw TypeError
                end in
  let! title := get v "title" in
  let! uploaderName := get v "uploaderName" in
  let! views := get v "views" in
  let! views' := formatViews views in
  let! uploadedDate := get v "uploadedDate" in
  let! duration := get v "duration" in
  let! duration' := formatDuration duration in
  let! thumbnail := get v "thumbnail" in
  let! uploaderAvatar := get v "uploaderAvatar" in
  let! isShort := get v "isShort" in
  Ret {| o_id := second parts;
         o_title := title;
         o_uploader := uploaderName;
         o_views := VStr views';
         o_date := or_else uploadedDate (VStr "Recently");
         o_duration := VStr duration';
         o_thumbnail := thumbnail;
         o_platform := VStr "YouTube";
         o_avatar := uploaderAvatar;
         o_isShort := isShort;
         o_streamUrl := VUndefined |}.

Definition dailymotionRecord (v : value) : outcome VideoObject :=
  let! id := get v "id" in
  let! title := get v "title" in
  let! owner := get v "owner" in
  let! uploader := if truthy owner then get owner "username" else Ret (VStr "Unknown") in
  let! views_total := get v "views_total" in
  let! views' := formatViews views_total in
  let! duration := get v "duration" in
  let! duration' := formatDuration duration in
  let! thumbnail := get v "thumbnail_720_url" in
  let! avatar := if truthy owner then get owner "avatar_80_url" else Ret (VStr "") in
  Ret {| o_id := id;
         o_title := title;
         o_uploader := uploader;
         o_views := VStr views';
         o_date := VStr "Recently";
         o_duration := VStr duration';
         o_thumbnail := thumbnail;
         o_platform := VStr "Dailymotion";
         o_avatar := avatar;
         o_isShort := VUndefined;
         o_streamUrl := VUndefined |}.

Definition mapDmData (data : value) : outcome (list VideoObject) :=
  if negb (truthy data) then Ret []
  else
    let! list := get data "list" in
    if negb (truthy list) then Ret []
    else let! items := as_array list in omap dailymotionRecord items.

Definition peerTubeRecord (v : value) : outcome VideoObject :=
  let! uuid := get v "uuid" in
  let! id := if truthy uuid then Ret uuid
             else let! i := get v "id" in
                  let! s := call_toString E i in Ret (VStr s) in
  let! name := get v "name" in
  let! title := if truthy name then Ret name
                else let! option := get v "option" in get_opt option "name" in
  let! account := get v "account" in
  let! accountName := get_opt account "name" in
  let! views := get v "views" in
  let! views' := formatViews views in
  let! publishedAt := get v "publishedAt" in
  let! date := if truthy publishedAt
               then let! p := ToPrimitive E publishedAt in
                    Ret (toLocaleDateString E p)
               else Ret "Recently" in
  let! duration := get v "duration" in
  let! duration' := formatDuration duration in
  let! thumbnailUrl := get v "thumbnailUrl" in
  let! thumbnail :=
    if truthy thumbnailUrl then Ret thumbnailUrl
    else let! previewPath := get v "previewPath" in
         if truthy previewPath
         then let! p := ToString E previewPath in
              Ret (VStr ("https://sepiasearch.org" ++ p))
         else Ret (VStr "") in
  let! embedPath := get v "embedPath" in
  Ret {| o_id := id;
         o_title := title;
         o_uploader := or_else accountName (VStr "PeerTube User");
         o_views := VStr views';
         o_date := VStr date;
         o_duration := VStr duration';
         o_thumbnail := thumbnail;
         o_platform := VStr "PeerTube";
         o_avatar := VStr "";
         o_isShort := VUndefined;
         o_streamUrl := embedPath |}.

Definition mapPeerTubeData (data : value) : outcome (list VideoObject) :=
  if negb (truthy data) then Ret []
  else
    let! list := get data "data" in
    if negb (truthy list) then Ret []
    else let! items := as_array list in omap peerTubeRecord items.

(** *** Service export *)

Definition DM_FIELDS : string :=
  "/videos?flags=no_live,no_premium&fields=id,title,owner.username,views_total,created_time,duration,thumbnail_720_url,owner.avatar_80_url".

(** [encodeURIComponent(query)] inside a template literal. *)
Definition encode (query : string) : outcome string :=
  match encodeURIComponent E query with
  | Some s => Ret s
  | None => Throw URIError
  end.

(** [v.title.toLowerCase().includes(query.toLowerCase())] on a record of
    the constants module. *)
Definition titleMatches (query : string) (v : VideoData) : bool :=
  includes (toLowerCase E (title v)) (toLowerCase E query).

(** The [try] block of [getTrending]. *)
Definition getTrending_try (platform country : string) : M (list VideoObject) :=
  if (platform =? "YouTube") || (platform =? "All") then
    data <- fetchWithRotation ("/trending?region=" ++ country) ;;
    lift (let! items := as_array data in omap youtubeRecord items)
  else if platform =? "Dailymotion" then
    data <- nativeFetch (DM_API_BASE ++ DM_FIELDS ++ "&sort=trending&limit=20&country=" ++ country) ;;
    lift (mapDmData data)
  else if platform =? "PeerTube" then
    data <- nativeFetch (PEERTUBE_SEARCH_API ++ "?sort=-publishedAt&nsfw=false&count=10") ;;
    lift (mapPeerTubeData data)
  else if platform =? "TikTok" then ret (map box (MOCK_TIKTOK_VIDEOS C))
  else if platform =? "Rumble" then ret (map box (MOCK_RUMBLE_VIDEOS C))
  else if platform =? "Bandcamp" then ret []
  else ret (map box (MOCK_VIDEOS C)).

(** The [catch] block of [getTrending]. *)
Definition getTrending_catch (isNative : bool) (platform : string)
  : M (list VideoObject) :=
  if negb isNative then
    if platform =? "TikTok" then ret (map box (MOCK_TIKTOK_VIDEOS C))
    else if platform =? "Rumble" then ret (map box (MOCK_RUMBLE_VIDEOS C))
    else if platform =? "PeerTube" then ret (map box (MOCK_PEERTUBE_VIDEOS C))
    else sleep 800 ;;; ret (map box (MOCK_VIDEOS C))
  else
    console_error "[StreamService] Trending Error:" ;;; ret [].

(** [country] is [None] when the caller leaves the argument out. *)
Definition getTrending (platform : string) (country : option string)
  : M (list VideoObject) :=
  let country := match country with Some c => c | None => "US" end in
  let isNative := isNativePlatform H in
  try_catch (getTrending_try platform country)
            (fun _ => getTrending_catch isNative platform).

(** The [try] block of [search]. *)
Definition search_try (query platform : string) : M (list VideoObject) :=
  if (platform =? "YouTube") || (platform =? "All") then
    q <- lift (encode query) ;;
    data <- fetchWithRotation ("/search?q=" ++ q ++ "&filter=all") ;;
    lift (let! items := get data "items" in
          let! items := as_array items in
          let! streams := ofilter (fun i => let! t := get i "type" in
                                            Ret (is_str t "stream")) items in
          omap youtubeRecord streams)
  else if platform =? "Dailymotion" then
    q <- lift (encode query) ;;
    data <- nativeFetch (DM_API_BASE ++ DM_FIELDS ++ "&limit=20&search=" ++ q) ;;
    lift (mapDmData data)
  else if platform =? "PeerTube" then
    q <- lift (encode query) ;;
    data <- nativeFetch (PEERTUBE_SEARCH_API ++ "?search=" ++ q ++ "&count=20&sort=-match") ;;
    lift (mapPeerTubeData data)
  else if platform =? "TikTok" then
    ret (map box (filter (fun v => titleMatches query v || (String.length query <? 3)%nat)
                         (MOCK_TIKTOK_VIDEOS C)))
  else if platform =? "Rumble" then
    ret (map box (filter (fun v => titleMatches query v || (String.length query <? 3)%nat)
                         (MOCK_RUMBLE_VIDEOS C)))
  else ret (map box (filter (titleMatches query) (MOCK_VIDEOS C))).

(** The mock set the [catch] block of [search] starts from. *)
Definition search_fallback_set (platform : string) : list VideoData :=
  if platform =? "TikTok" then MOCK_TIKTOK_VIDEOS C
  else if platform =? "Rumble" then MOCK_RUMBLE_VIDEOS C
  else if platform =? "PeerTube" then MOCK_PEERTUBE_VIDEOS C
  else MOCK_VIDEOS C.

(** The [catch] block of [search]. *)
Definition search_catch (isNative : bool) (query platform : string)
  : M (list VideoObject) :=
  if negb isNative then
    sleep 800 ;;;
    let results := search_fallback_set platform in
    let filtered := filter (titleMatches query) results in
    ret (map box (if (0 <? List.length filtered)%nat then filtered else results))
  else
    console_error "[StreamService] Search Error:" ;;; ret [].

Definition search (query platform : string) : M (list VideoObject) :=
  let isNative := isNativePlatform H in
  try_catch (search_try query platform)
            (fun _ => search_catch isNative query platform).

Definition getSuggestions (query : string) : M value :=
  if query =? "" then ret (VArr [])
  else
    try_catch (q <- lift (encode query) ;;
               fetchWithRotation ("/suggestions?query=" ++ q))
              (fun _ => ret (VArr [])).

(** [streams.find(s => ...)]: the element found, or [undefined]. *)
Definition find_stream (p : value -> outcome bool) (streams : value) : outcome value :=
  let! items := as_array streams in
  let! r := ofind p items in
  Ret (match r with Some s => s | None => VUndefined end).

Definition is1080 (s : value) : outcome bool :=
  let! q := get s "quality" in
  if is_str q "1080p" then let! vo := get s "videoOnly" in Ret (is_false vo)
  else Ret false.

Definition is720 (s : value) : outcome bool :=
  let! q := get s "quality" in
  if is_str q "720p" then let! vo := get s "videoOnly" in Ret (is_false vo)
  else Ret false.

Definition isMuxed (s : value) : outcome bool :=
  let! vo := get s "videoOnly" in Ret (is_false vo).

(** What [getStreamUrl] computes from the payload of [/streams/{id}]. *)
Definition pickStream (data : value) : outcome value :=
  let! hls := get data "hls" in
  if truthy hls then Ret hls
  else
    let! videoStreams := get data "videoStreams" in
    let streams := or_else videoStreams (VArr []) in
    let! b1 := find_stream is1080 streams in
    let! bestStream :=
      if truthy b1 then Ret b1
      else let! b2 := find_stream is720 streams in
           if truthy b2 then Ret b2 else find_stream isMuxed streams in
    if truthy bestStream then get bestStream "url" else Ret VNull.

Definition SAMPLE_URL : string :=
  "https://commondatastorage.googleapis.com/gtv-videos-bucket/sample/BigBuckBunny.mp4".

Definition allMocks : list VideoData :=
  (MOCK_TIKTOK_VIDEOS C ++ MOCK_RUMBLE_VIDEOS C ++ MOCK_PEERTUBE_VIDEOS C
   ++ MOCK_VIDEOS C)%list.

Definition getStreamUrl (id' platform : string) : M value :=
  if platform =? "YouTube" then
    try_catch (data <- fetchWithRotation ("/streams/" ++ id') ;;
               lift (pickStream data))
              (fun _ => ret VNull)
  else if platform =? "Dailymotion" then
    ret (VStr ("https://www.dailymotion.com/embed/video/" ++ id' ++ "?autoplay=1"))
  else
    match find (fun v => id v =? id') allMocks with
    | Some {| streamUrl := Some url |} =>
        if negb (url =? "") then ret (VStr url) else ret (VStr SAMPLE_URL)
    | _ => ret (VStr SAMPLE_URL)
    end.

End Service.

(** ** Specification-level definitions and concrete inputs *)

(** The rotation in the words of the specification: attempt [k] goes to
    the pool entry [(preferred + k) mod poolSize], where [preferred] is
    the cursor when the call starts; the first success returns its
    payload and moves the cursor if the index differs; three failures
    fail the call. *)
Definition attempt (H : Host) (path : string) (preferred k : nat) : M value :=
  nativeFetch H
    (nth ((preferred + k) mod List.length PIPED_INSTANCES) PIPED_INSTANCES "" ++ path).

Definition adopt (preferred k : nat) (w : World) : World :=
  let successful := (preferred + k) mod List.length PIPED_INSTANCES in
  if (successful =? preferred)%nat then w else set_active successful w.

Definition AllInstancesExhausted : error := Error "All API instances failed.".


Definition w0 : World := {| activeInstanceIndex := 0; trace := [] |}.

(** A browser without network: every [fetch] rejects. *)
Definition offlineWeb : Host := {|
  isNativePlatform := false;
  hasCapacitorHttp := false;
  capacitorHttpGet := fun _ _ => NativeRejected;
  fetch := fun _ _ => FetchRejected
|}.

(** A native shell without network. *)
Definition offlineNative : Host := {|
  isNativePlatform := true;
  hasCapacitorHttp := true;
  capacitorHttpGet := fun _ _ => NativeRejected;
  fetch := fun _ _ => FetchRejected
|}.

(** A native shell in which the CapacitorHttp plugin is not registered,
    and whose web view reaches a server that answers 200 with [data]. *)
Definition nativeWithoutPlugin (data : value) : Host := {|
  isNativePlatform := true;
  hasCapacitorHttp := false;
  capacitorHttpGet := fun _ _ => NativeRejected;
  fetch := fun _ _ => FetchResponse 200 (Some data)
|}.

(** A browser that reaches one mirror only, the third of the pool, and
    not the relay. *)
Definition oneMirrorWeb (data : value) : Host := {|
  isNativePlatform := false;
  hasCapacitorHttp := false;
  capacitorHttpGet := fun _ _ => NativeRejected;
  fetch := fun _ url =>
    if String.prefix "https://piped-api.garudalinux.org" url
    then FetchResponse 200 (Some data) else FetchResponse 503 None
|}.

(** A browser whose every request is answered 200 with [data]. *)
Definition onlineWeb (data : value) : Host := {|
  isNativePlatform := false;
  hasCapacitorHttp := false;
  capacitorHttpGet := fun _ _ => NativeRejected;
  fetch := fun _ _ => FetchResponse 200 (Some data)
|}.

(** The payload of a [fetch] that succeeded: a 2xx status and a body
    that parses. *)
Definition payload (r : fetch_response) : option value :=
  match r with
  | FetchResponse status (Some data) => if ok status then Some data else None
  | _ => None
  end.

(** The native strategy: one request through the native facility. *)
Definition native_strategy (H : Host) (url : string) : M value :=
  fun w =>
    (match capacitorHttpGet H (trace w) url with
     | NativeResponse status data =>
         if ok status then Ret data
         else Throw (Error ("Native HTTP Error: " ++ decimal status))
     | NativeRejected => Throw (Error "CapacitorHttp request failed")
     end,
     emit (NativeGet url) w).

(** The web strategy: a direct request, and when it fails one more
    through the relay, the URL prefixed. *)
Definition web_strategy (H : Host) (url : string) : M value :=
  fun w =>
    let w1 := emit (WebFetch url) w in
    match payload (fetch H (trace w) url) with
    | Some data => (Ret data, w1)
    | None =>
        (match payload (fetch H (trace w1) (CORS_PROXY ++ url)) with
         | Some data => Ret data
         | None => Throw (Error "Web Fetch Failed")
         end,
         emit (WebFetch (CORS_PROXY ++ url)) w1)
    end.

(** The claim as the specification states it: the strategy is chosen by
    the execution context alone. *)
Definition strategy_by_context (H : Host) (url : string) (w : World) : Prop :=
  nativeFetch H url w =
  if isNativePlatform H then native_strategy H url w else web_strategy H url w.

(** A record of a mock set. *)
Definition mock (id' title' platform' : string) (url : option string) : VideoData := {|
  id := id'; title := title'; uploader := "Uploader"; views := "1.2M";
  date := "Recently"; duration := "3:45"; thumbnail := "https://picsum.photos/400";
  platform := platform'; avatar := ""; streamUrl := url; isShort := None
|}.

(** A stand-in for the constants module. *)
Definition sampleConstants : Constants := {|
  MOCK_VIDEOS := [mock "m1" "Big Buck Bunny" "YouTube" None;
                  mock "m2" "Sintel Trailer" "YouTube" (Some "https://cdn.example/sintel.mp4")];
  MOCK_TIKTOK_VIDEOS := [mock "t1" "Dance Challenge" "TikTok" (Some "https://cdn.example/t1.mp4");
                         mock "t2" "Cooking Hack" "TikTok" None];
  MOCK_RUMBLE_VIDEOS := [mock "r1" "Morning News" "Rumble" None];
  MOCK_PEERTUBE_VIDEOS := [mock "p1" "Cat Video" "PeerTube" None;
                           mock "p2" "Dog Video" "PeerTube" None]
|}.

(** [s.k] on a value that is neither [undefined] nor [null]. *)
Definition prop (s : value) (k : string) : value :=
  match s with
  | VObj fields => lookup k fields
  | _ => VUndefined
  end.

Definition av1080 (s : value) : bool :=
  is_str (prop s "quality") "1080p" && is_false (prop s "videoOnly").
Definition av720 (s : value) : bool :=
  is_str (prop s "quality") "720p" && is_false (prop s "videoOnly").
Definition av (s : value) : bool := is_false (prop s "videoOnly").

(** The preference order of the specification: the first 1080p
    audio+video variant, else the first 720p one, else the first
    audio+video variant of any quality, else null. *)
Definition preferred_url (streams : list value) : value :=
  match find av1080 streams with
  | Some s => prop s "url"
  | None =>
      match find av720 streams with
      | Some s => prop s "url"
      | None =>
          match find av streams with
          | Some s => prop s "url"
          | None => VNull
          end
      end
  end.

Definition variant (quality url : string) (videoOnly : bool) : value :=
  VObj [("url", VStr url); ("quality", VStr quality); ("videoOnly", VBool videoOnly)].

Definition sampleStreams : list value :=
  [variant "2160p" "https://cdn.example/2160-video.webm" true;
   variant "720p" "https://cdn.example/720.mp4" false;
   variant "1080p" "https://cdn.example/1080.mp4" false;
   variant "360p" "https://cdn.example/360.mp4" false].

Definition streamsPayload : value :=
  VObj [("title", VStr "Sintel"); ("hls", VNull); ("videoStreams", VArr sampleStreams)].

(** The claim as the specification states it: without an adaptive
    stream, the answer is the URL that the preference order picks among
    the entries of the stream list. *)
Definition stream_preference_claimed (H : Host) (C : Constants) (id' : string)
    (w : World) : Prop :=
  forall data w' items,
    fetchWithRotation H ("/streams/" ++ id') w = (Ret data, w') ->
    truthy (prop data "hls") = false ->
    prop data "videoStreams" = VArr items ->
    getStreamUrl H C id' "YouTube" w = (Ret (preferred_url items), w').

(** A stream list whose first entry is null, ahead of a 1080p and a 720p
    audio+video variant. *)
Definition nullFrontStreams : list value :=
  [VNull;
   variant "1080p" "https://cdn.example/1080.mp4" false;
   variant "720p" "https://cdn.example/720.mp4" false].

Definition nullFrontPayload : value := VObj [("videoStreams", VArr nullFrontStreams)].

(** The static mock sets, in the order in which a lookup goes through
    them. *)
Definition all_mock_sets (C : Constants) : list (list VideoData) :=
  [MOCK_TIKTOK_VIDEOS C; MOCK_RUMBLE_VIDEOS C; MOCK_PEERTUBE_VIDEOS C; MOCK_VIDEOS C].

(** The first record with the id [id'], going through the sets one
    after the other. *)
Fixpoint first_in_sets (id' : string) (sets : list (list VideoData))
  : option VideoData :=
  match sets with
  | [] => None
  | set :: rest =>
      match find (fun v => id v =? id') set with
      | Some m => Some m
      | None => first_in_sets id' rest
      end
  end.

(** A record that has a stream URL: one that is there and not empty. *)
Definition has_stream_url (m : VideoData) : bool :=
  match streamUrl m with
  | Some url => negb (url =? "")
  | None => false
  end.

Definition stream_url_or_sample (m : option VideoData) : string :=
  match m with
  | Some {| streamUrl := Some url |} => if url =? "" then SAMPLE_URL else url
  | _ => SAMPLE_URL
  end.

(** The URL [getStreamUrl] gives for a platform that is neither
    "YouTube" nor "Dailymotion": the stream URL of the first record
    with that id among the TikTok, Rumble, PeerTube and generic sets,
    in that order, when that record has one, else the sample URL. *)
Definition mock_stream_url (C : Constants) (id' : string) : string :=
  stream_url_or_sample (first_in_sets id' (all_mock_sets C)).

(** The claim as the specification states it: the stream URL of a
    record with that id that has one, whenever some mock set holds such
    a record. *)
Definition stream_url_claimed (C : Constants) (id' : string) : string :=
  stream_url_or_sample
    (find (fun v => (id v =? id') && has_stream_url v) (List.concat (all_mock_sets C))).

(** Mock sets in which two providers number their records alike. *)
Definition collidingConstants : Constants := {|
  MOCK_VIDEOS := [mock "1" "Big Buck Bunny" "YouTube" (Some "https://cdn.example/bbb.mp4")];
  MOCK_TIKTOK_VIDEOS := [mock "1" "Dance Challenge" "TikTok" None];
  MOCK_RUMBLE_VIDEOS := [];
  MOCK_PEERTUBE_VIDEOS := []
|}.

Definition embed_url (id' : string) : string :=
  "https://www.dailymotion.com/embed/video/" ++ id' ++ "?autoplay=1".

Definition recognized : list string :=
  ["YouTube"; "All"; "Dailymotion"; "PeerTube"; "TikTok"; "Rumble"; "Bandcamp"].

(** The live answer of the mock-backed providers as the specification
    words it: under three characters, or when nothing matches, the whole
    set; else the matching records. *)
Definition mock_search_claimed (E : Engine) (query : string) (set : list VideoData)
  : list VideoData :=
  let filtered := filter (titleMatches E query) set in
  if (String.length query <? 3)%nat || (List.length filtered =? 0)%nat
  then set else filtered.

(** The static mock set of a provider: its own for the three providers
    that have one, the generic set for every other token. *)
Definition mock_set_for (C : Constants) (platform : string) : list VideoData :=
  match find (fun entry => platform =? fst entry)
             [("TikTok", MOCK_TIKTOK_VIDEOS C);
              ("Rumble", MOCK_RUMBLE_VIDEOS C);
              ("PeerTube", MOCK_PEERTUBE_VIDEOS C)] with
  | Some entry => snd entry
  | None => MOCK_VIDEOS C
  end.

Definition has_own_mock_set (platform : string) : bool :=
  (platform =? "TikTok") || (platform =? "Rumble") || (platform =? "PeerTube").

Definition country_or_default (country : option string) : string :=
  match country with
  | Some c => c
  | None => "US"
  end.

(** The claim as the specification states it: when the dispatched call
    fails, both operations answer with the provider's mock set in a
    non-native context and with the empty list in a native one. *)
Definition fallback_claimed (E : Engine) (H : Host) (C : Constants)
    (platform query : string) (country : option string) (w : World) : Prop :=
  let answer := if isNativePlatform H then [] else map box (mock_set_for C platform) in
  (forall e w1,
     getTrending_try E H C platform (country_or_default country) w = (Throw e, w1) ->
     fst (getTrending E H C platform country w) = Ret answer) /\
  (forall e w1,
     search_try E H C query platform w = (Throw e, w1) ->
     fst (search E H C query platform w) = Ret answer).

(** What the [catch] block of [search] answers in a non-native context:
    the records of the provider's mock set whose title contains the
    query, or the whole set when there is none. *)
Definition search_fallback (E : Engine) (C : Constants) (query platform : string)
  : list VideoData :=
  match filter (titleMatches E query) (mock_set_for C platform) with
  | [] => mock_set_for C platform
  | filtered => filtered
  end.

(** The nine fields that [VideoData] declares without a question mark
    all hold something other than [undefined] and [null]. *)
Definition populated (r : VideoObject) : bool :=
  forallb (fun field => negb (nullish field))
    [o_id r; o_title r; o_uploader r; o_views r; o_date r; o_duration r;
     o_thumbnail r; o_platform r; o_avatar r].

(** The claim as the specification states it, for one mapper and one raw
    item: the mapper returns, and what it returns is populated. *)
Definition completeness_claimed (normalize : value -> outcome VideoObject)
    (item : value) : Prop :=
  exists r, normalize item = Ret r /\ populated r = true.

Definition is_string (v : value) : Prop := exists s, v = VStr s.

(** One entry of a trending payload of the rotation-capable provider. *)
Definition trendingItem : value :=
  VObj [("url", VStr "/watch?v=aqz-KE-bpKQ"); ("title", VStr "Big Buck Bunny");
        ("uploaderName", VStr "Blender"); ("views", VNum 1500000);
        ("duration", VNum 3661); ("thumbnail", VStr "https://i.example/bbb.jpg");
        ("uploaderAvatar", VStr "https://i.example/blender.jpg");
        ("isShort", VBool false)].

(** What the Dailymotion mapper makes of an item that has only an id
    and a title. *)
Definition bareItem : value := VObj [("id", VStr "x8abc"); ("title", VStr "Clip")].

Definition bareRecord : VideoObject := {|
  o_id := VStr "x8abc"; o_title := VStr "Clip"; o_uploader := VStr "Unknown";
  o_views := VStr "0"; o_date := VStr "Recently"; o_duration := VStr "00:00";
  o_thumbnail := VUndefined; o_platform := VStr "Dailymotion"; o_avatar := VStr "";
  o_isShort := VUndefined; o_streamUrl := VUndefined
|}.

(** ** Further definitions: worlds, requests, and the code of the application shell *)

(** An event that is a request sent to the network. *)
Definition is_request (e : event) : bool :=
  match e with
  | NativeGet _ | WebFetch _ => true
  | Sleep _ | ConsoleError _ => false
  end.

Definition poolSize : nat := List.length PIPED_INSTANCES.

(** How a call may leave the world: the trace only grows, by [new], and
    the cursor either stays or lands inside the pool. *)
Definition evolves (w w' : World) (new : list event) : Prop :=
  trace w' = (new ++ trace w)%list /\
  (activeInstanceIndex w' = activeInstanceIndex w \/
   (activeInstanceIndex w' < poolSize)%nat).

(** The requests that serve [url]: native, direct, or through the relay. *)
Definition serves (url : string) (e : event) : Prop :=
  e = NativeGet url \/ e = WebFetch url \/ e = WebFetch (CORS_PROXY ++ url).

(** The trace of [w'] continues the trace of [w]. *)
Definition continues (w w' : World) : Prop :=
  exists new, trace w' = (new ++ trace w)%list.

(** The two ways a computation may treat the world: [settles] allows the
    cursor to move to an index of the pool, [keeps_cursor] does not allow
    it to move at all. *)
Definition settles (w w' : World) : Prop :=
  continues w w' /\
  (activeInstanceIndex w' = activeInstanceIndex w \/
   (activeInstanceIndex w' < poolSize)%nat).

Definition keeps_cursor (w w' : World) : Prop :=
  continues w w' /\ activeInstanceIndex w' = activeInstanceIndex w.

(** A computation all of whose runs are related by [R]. *)
Definition respects {A} (R : World -> World -> Prop) (m : M A) : Prop :=
  forall w, R w (snd (m w)).

(** A stream payload whose list holds a null entry between two variants. *)
Definition brokenStreams : value :=
  VObj [("videoStreams",
         VArr [variant "720p" "https://cdn.example/720.mp4" false; VNull;
               variant "1080p" "https://cdn.example/1080.mp4" false])].

(** A Dailymotion payload of two entries. *)
Definition dmPayload : value :=
  VObj [("list", VArr [bareItem; VObj [("id", VStr "x9"); ("views_total", VNum 2500)]])].

(** Whole seconds as the formatter should print them, in integer
    arithmetic: minutes and zero-padded seconds below an hour, hours,
    zero-padded minutes and zero-padded seconds from an hour on. *)
Definition pad2 (k : Z) : string :=
  if (k <? 10)%Z then "0" ++ decimal k else decimal k.

Definition clock (n : Z) : string :=
  let h := (n / 3600)%Z in
  let m := (n mod 3600 / 60)%Z in
  let s := (n mod 60)%Z in
  if (0 <? h)%Z then decimal h ++ ":" ++ pad2 m ++ ":" ++ pad2 s
  else decimal m ++ ":" ++ pad2 s.

(** An outcome that is the string [s]. *)
Definition returns (x : outcome string) (s : string) : bool :=
  match x with
  | Ret t => t =? s
  | Throw _ => false
  end.

(** The whole numbers [lo], [lo + 1], ..., [lo + len - 1]. *)
Definition whole_numbers (lo : Z) (len : nat) : list Z :=
  map (fun k => (lo + Z.of_nat k)%Z) (seq 0 len).

Definition primitive (v : value) : bool :=
  match v with
  | VArr _ | VObj _ => false
  | _ => true
  end.

(** ** The error boundary *)

Module ErrorBoundary.

(** The component state; [error] is [undefined] until an error is caught. *)
Record State : Type := {
  hasError : bool;
  error : value
}.

Definition initial : State := {| hasError := false; error := VUndefined |}.

Definition getDerivedStateFromError (e : value) : State :=
  {| hasError := true; error := e |}.

(** What [render] returns: the fallback screen with the text of its
    paragraph, or the children. *)
Inductive screen : Type :=
| Fallback (message : value)
| Children.

Definition DEFAULT_MESSAGE : string := "An unexpected error occurred during startup.".

Definition render (s : State) : outcome screen :=
  if hasError s then
    let! message := get_opt (error s) "message" in
    Ret (Fallback (or_else message (VStr DEFAULT_MESSAGE)))
  else Ret Children.

End ErrorBoundary.

(** ** The application shell *)

Module App.

(** Declared in [./types], which is not among the sources; these are the
    members [App.tsx] names. *)
Inductive ViewState : Type :=
| HOME | TRENDING | SEARCH | LIVE_SPORTS | LIBRARY | SUBSCRIPTIONS
| SETTINGS_PRIVACY | PLAYER.

Definition view_eqb (a b : ViewState) : bool :=
  match a, b with
  | HOME, HOME | TRENDING, TRENDING | SEARCH, SEARCH | LIVE_SPORTS, LIVE_SPORTS
  | LIBRARY, LIBRARY | SUBSCRIPTIONS, SUBSCRIPTIONS
  | SETTINGS_PRIVACY, SETTINGS_PRIVACY | PLAYER, PLAYER => true
  | _, _ => false
  end.

(** The state [fetchData] reads and writes. *)
Record Feed : Type := {
  view : ViewState;
  searchQuery : string;
  currentPlatform : string;
  country : string;            (* settings.country *)
  videos : list VideoObject;
  loading : bool;
  loadingText : string;
  error : bool
}.

Definition setVideos (l : list VideoObject) (s : Feed) : Feed :=
  {| view := view s; searchQuery := searchQuery s;
     currentPlatform := currentPlatform s; country := country s;
     videos := l; loading := loading s; loadingText := loadingText s;
     error := error s |}.

Definition setLoading (b : bool) (s : Feed) : Feed :=
  {| view := view s; searchQuery := searchQuery s;
     currentPlatform := currentPlatform s; country := country s;
     videos := videos s; loading := b; loadingText := loadingText s;
     error := error s |}.

Definition setLoadingText (t : string) (s : Feed) : Feed :=
  {| view := view s; searchQuery := searchQuery s;
     currentPlatform := currentPlatform s; country := country s;
     videos := videos s; loading := loading s; loadingText := t;
     error := error s |}.

Definition setError (b : bool) (s : Feed) : Feed :=
  {| view := view s; searchQuery := searchQuery s;
     currentPlatform := currentPlatform s; country := country s;
     videos := videos s; loading := loading s; loadingText := loadingText s;
     error := b |}.

Section Fetch.
Variable E : Engine.
Variable H : Host.
Variable C : Constants.

(** The two [if]s that choose the loading text, the second overriding
    the first. *)
Definition action (v : ViewState) : string :=
  let action := "Loading" in
  let action := if view_eqb v SEARCH then "Searching" else action in
  if view_eqb v LIVE_SPORTS then "Finding Live Sports" else action.

(** The call [fetchData] awaits inside its [try]. *)
Definition dispatch (s : Feed) : M (list VideoObject) :=
  if view_eqb (view s) SEARCH && negb (searchQuery s =? "") then
    search E H C (searchQuery s) (currentPlatform s)
  else if view_eqb (view s) LIVE_SPORTS then
    search E H C "Live Cricket Match" "All"
  else
    getTrending E H C (currentPlatform s) (Some (country s)).

(** [fetchData], on the state it closed over and the world. *)
Definition fetchData (s : Feed) (w : World) : Feed * World :=
  let s1 := setError false (setLoadingText (action (view s) ++ "...") (setLoading true s)) in
  match dispatch s w with
  | (Ret fetchedVideos, w') =>
      (setLoading false (setVideos fetchedVideos s1), w')
  | (Throw _, w') =>
      let w'' := emit (ConsoleError "Fetch failed") w' in
      (setLoading false
         (if (List.length (videos s) =? 0)%nat
          then setVideos (map box (MOCK_VIDEOS C)) s1 else s1),
       w'')
  end.

End Fetch.

(** [localStorage], as the function from keys to stored strings. *)
Definition Storage : Type := string -> option string.

Definition getItem (k : string) (st : Storage) : option string := st k.

Definition setItem (k v : string) (st : Storage) : Storage :=
  fun k' => if k' =? k then Some v else st k'.

Definition removeItem (k : string) (st : Storage) : Storage :=
  fun k' => if k' =? k then None else st k'.

(** History and bookmarks.  A video is whatever object the player hands
    back; [id_of] reads its [id] and [same_id] is [===] on two ids.
    [stringify] is [JSON.stringify] on a list of videos. *)
Section Library.
Variables video ident : Type.
Variable id_of : video -> ident.
Variable same_id : ident -> ident -> bool.
Variable stringify : list video -> string.

Record Library : Type := {
  history : list video;
  bookmarks : list video;
  incognito : bool;            (* settings.incognito *)
  storage : Storage
}.

Definition addToHistory (v : video) (s : Library) : Library :=
  if incognito s then s
  else
    let newHistory :=
      firstn 50 (v :: filter (fun x => negb (same_id (id_of x) (id_of v))) (history s)) in
    {| history := newHistory;
       bookmarks := bookmarks s;
       incognito := incognito s;
       storage := setItem "streamx_history" (stringify newHistory) (storage s) |}.

Definition clearHistory (s : Library) : Library :=
  {| history := [];
     bookmarks := bookmarks s;
     incognito := incognito s;
     storage := removeItem "streamx_history" (storage s) |}.

Definition toggleBookmark (v : video) (s : Library) : Library :=
  let newBookmarks :=
    match find (fun x => same_id (id_of x) (id_of v)) (bookmarks s) with
    | Some _ => filter (fun x => negb (same_id (id_of x) (id_of v))) (bookmarks s)
    | None => v :: bookmarks s
    end in
  {| history := history s;
     bookmarks := newBookmarks;
     incognito := incognito s;
     storage := setItem "streamx_bookmarks" (stringify newBookmarks) (storage s) |}.

(** [bookmarks.some(b => b.id === currentVideo.id)]. *)
Definition isBookmarked (v : video) (s : Library) : bool :=
  existsb (fun b => same_id (id_of b) (id_of v)) (bookmarks s).

(** The stored copies agree with the lists in memory. *)
Definition in_sync (s : Library) : Prop :=
  (getItem "streamx_history" (storage s) = Some (stringify (history s)) \/
   (history s = [] /\ getItem "streamx_history" (storage s) = None)) /\
  (getItem "streamx_bookmarks" (storage s) = Some (stringify (bookmarks s)) \/
   (bookmarks s = [] /\ getItem "streamx_bookmarks" (storage s) = None)).

End Library.

Arguments history {video} _.
Arguments bookmarks {video} _.
Arguments incognito {video} _.
Arguments storage {video} _.
Arguments addToHistory {video ident} _ _ _ _ _.
Arguments clearHistory {video} _.
Arguments toggleBookmark {video ident} _ _ _ _ _.
Arguments isBookmarked {video ident} _ _ _ _.
Arguments in_sync {video} _ _.

End App.

(** A library of mock records, keyed by their [id]. *)
Definition sampleLibrary : App.Library VideoData := {|
  App.history := [mock "m1" "Big Buck Bunny" "YouTube" None;
                  mock "t1" "Dance Challenge" "TikTok" None];
  App.bookmarks := [mock "m2" "Sintel Trailer" "YouTube" None];
  App.incognito := false;
  App.storage := fun _ => None
|}.

Definition sampleFeed : App.Feed := {|
  App.view := App.SEARCH; App.searchQuery := ""; App.currentPlatform := "Rumble";
  App.country := "US"; App.videos := []; App.loading := false;
  App.loadingText := ""; App.error := false
|}.

(** [i.type === 'stream'] on an entry that is neither undefined nor null. *)
Definition is_stream (i : value) : bool := is_str (prop i "type") "stream".

(** A search payload: a channel entry without [url] and one stream. *)
Definition searchPayload : value :=
  VObj [("items",
         VArr [VObj [("type", VStr "channel"); ("name", VStr "Blender")];
               VObj (("type", VStr "stream") ::
                     match trendingItem with VObj fields => fields | _ => [] end)])].

(** ** Properties *)

(** Case analysis on the scrutinee of the first [match] or [if] of the
    goal. *)
Ltac break_match :=
  match goal with
  | |- context [match ?x with _ => _ end] =>
      lazymatch x with
      | context [match _ with _ => _ end] => fail
      | _ => destruct x eqn:?
      end
  end.

Lemma nativeFetch_index (H : Host) (url : string) (w : World) :
  activeInstanceIndex (snd (nativeFetch H url w)) = activeInstanceIndex w.
Proof.
  unfold nativeFetch, try_catch, direct_fetch, proxy_fetch, bind,
    CapacitorHttp_get, window_fetch, ret, throw.
  repeat (simpl; break_match); reflexivity.
Qed.

(** *** Formatter *)

(** C7: on the numbers 1500000, 500 and 0 [formatViews] gives "1.5M",
    "500" and "0"; on 3661, 90 and 0 [formatDuration] gives "1:01:01",
    "1:30" and "00:00".  Both are functions of their argument alone (and
    of the engine's number printing, which these inputs do not reach). *)
Theorem formatters_examples (E : Engine) :
  formatViews E (VNum 1500000) = Ret "1.5M" /\
  formatViews E (VNum 500) = Ret "500" /\
  formatViews E (VNum 0) = Ret "0" /\
  formatDuration E (VNum 3661) = Ret "1:01:01" /\
  formatDuration E (VNum 90) = Ret "1:30" /\
  formatDuration E (VNum 0) = Ret "00:00".
Proof. repeat split; vm_compute; reflexivity. Qed.

(** *** Endpoint rotator *)

Lemma rotation_step (H : Host) (path : string) (left k : nat) (w : World) :
  rotation_loop H path (S left) k w =
  match attempt H path (activeInstanceIndex w) k w with
  | (Ret data, w') => (Ret data, adopt (activeInstanceIndex w) k w')
  | (Throw _, w') => rotation_loop H path left (S k) w'
  end.
Proof.
  unfold attempt, adopt; simpl rotation_loop.
  pose proof (nativeFetch_index H
    (nth ((activeInstanceIndex w + k) mod List.length PIPED_INSTANCES)
         PIPED_INSTANCES "" ++ path) w) as Hi.
  destruct (nativeFetch H _ w) as [[data|e] w']; simpl in Hi; [|reflexivity].
  rewrite Hi, Nat.eqb_sym. reflexivity.
Qed.

Lemma attempt_index (H : Host) (path : string) (p k : nat) (w : World) :
  activeInstanceIndex (snd (attempt H path p k w)) = activeInstanceIndex w.
Proof. apply nativeFetch_index. Qed.


(** From a cursor at 0, with only the third mirror up: two mirrors are
    tried directly and through the relay, the third answers, and the
    cursor moves to 2; the next call goes to the third mirror at once. *)
Lemma rotation_example :
  fetchWithRotation (oneMirrorWeb (VArr [])) "/trending?region=US" w0 =
    (Ret (VArr []),
     {| activeInstanceIndex := 2;
        trace := [WebFetch "https://piped-api.garudalinux.org/trending?region=US";
                  WebFetch "https://cors-anywhere.herokuapp.com/https://api.piped.vic.click/trending?region=US";
                  WebFetch "https://api.piped.vic.click/trending?region=US";
                  WebFetch "https://cors-anywhere.herokuapp.com/https://pipedapi.kavin.rocks/trending?region=US";
                  WebFetch "https://pipedapi.kavin.rocks/trending?region=US"] |}) /\
  fetchWithRotation (oneMirrorWeb (VArr [])) "/suggestions?query=a"
    {| activeInstanceIndex := 2; trace := [] |} =
    (Ret (VArr []),
     {| activeInstanceIndex := 2;
        trace := [WebFetch "https://piped-api.garudalinux.org/suggestions?query=a"] |}).
Proof. split; reflexivity. Qed.

(** *** Transport *)

(** C6, as stated, fails: in a native context where the CapacitorHttp
    plugin is absent the request goes out through [fetch]. *)
Lemma strategy_by_context_fails :
  isNativePlatform (nativeWithoutPlugin VNull) = true /\
  nativeFetch (nativeWithoutPlugin VNull) "https://pa.il.ax/trending" w0 =
    (Ret VNull, {| activeInstanceIndex := 0;
                   trace := [WebFetch "https://pa.il.ax/trending"] |}) /\
  ~ strategy_by_context (nativeWithoutPlugin VNull) "https://pa.il.ax/trending" w0.
Proof.
  split; [reflexivity|]. split; [reflexivity|].
  unfold strategy_by_context. vm_compute. discriminate.
Qed.

(** C6, amended: the native strategy is used, alone, when the context is
    native and the native HTTP facility is there; in every other case
    the web strategy is used, alone.  The requests of one call are
    therefore either a single native request, or a single direct
    [fetch], or a direct [fetch] followed by one through the relay. *)
Theorem nativeFetch_strategy (H : Host) (url : string) (w : World) :
  nativeFetch H url w =
    (if isNativePlatform H && hasCapacitorHttp H
     then native_strategy H url w
     else web_strategy H url w) /\
  trace (snd (nativeFetch H url w)) =
    ((if isNativePlatform H && hasCapacitorHttp H then [NativeGet url]
      else match payload (fetch H (trace w) url) with
           | Some _ => [WebFetch url]
           | None => [WebFetch (CORS_PROXY ++ url); WebFetch url]
           end) ++ trace w)%list.
Proof.
  assert (Heq : nativeFetch H url w =
    if isNativePlatform H && hasCapacitorHttp H
    then native_strategy H url w
    else web_strategy H url w); [|split; [exact Heq|]].
  2: { rewrite Heq. unfold native_strategy, web_strategy.
       destruct (isNativePlatform H && hasCapacitorHttp H); [reflexivity|].
       destruct (payload (fetch H (trace w) url)); reflexivity. }
  unfold nativeFetch, native_strategy, web_strategy, try_catch, direct_fetch,
    proxy_fetch, bind, CapacitorHttp_get, window_fetch, ret, throw, payload, ok.
  destruct (isNativePlatform H && hasCapacitorHttp H).
  - destruct (capacitorHttpGet H (trace w) url) as [|status data]; [reflexivity|].
    destruct ((200 <=? status)%Z && (status <? 300)%Z); reflexivity.
  - destruct (fetch H (trace w) url) as [|status [data|]];
      try destruct ((200 <=? status)%Z && (status <? 300)%Z);
      try reflexivity;
      cbn [emit trace];
      destruct (fetch H _ (CORS_PROXY ++ url)) as [|status' [data'|]];
      try destruct ((200 <=? status')%Z && (status' <? 300)%Z);
      reflexivity.
Qed.

(** *** Suggestions *)

(** C8: [getSuggestions] never throws; on the empty query it returns an
    empty array and leaves the world as it was (no request is sent); on
    any other query a failure of the rotated fetch, or of the encoding
    of the query, gives an empty array. *)
Theorem getSuggestions_never_throws (E : Engine) (H : Host) (query : string) (w : World) :
  getSuggestions E H "" w = (Ret (VArr []), w) /\
  (exists v w', getSuggestions E H query w = (Ret v, w')) /\
  (query <> "" ->
   match encodeURIComponent E query with
   | None => getSuggestions E H query w = (Ret (VArr []), w)
   | Some q =>
       forall e w', fetchWithRotation H ("/suggestions?query=" ++ q) w = (Throw e, w') ->
                    getSuggestions E H query w = (Ret (VArr []), w')
   end).
Proof.
  split; [reflexivity|].
  unfold getSuggestions, try_catch, bind, lift, encode, ret.
  split.
  - destruct (query =? ""); [eauto|].
    destruct (encodeURIComponent E query) as [q|]; [|eauto].
    destruct (fetchWithRotation H _ w) as [[d|e] w']; eauto.
  - intros Hq. apply String.eqb_neq in Hq. rewrite Hq.
    destruct (encodeURIComponent E query) as [q|]; [|reflexivity].
    intros e w' Hf. rewrite Hf. reflexivity.
Qed.

Lemma getSuggestions_never_throws_witness :
  getSuggestions asciiEngine offlineWeb "a" w0 =
  (Ret (VArr []), snd (fetchWithRotation offlineWeb "/suggestions?query=a" w0)).
Proof.
  refine (proj2 (proj2 (getSuggestions_never_throws asciiEngine offlineWeb "a" w0))
            _ AllInstancesExhausted _ _).
  - discriminate.
  - reflexivity.
Defined.

(** *** Stream resolution *)

Lemma get_prop (s : value) (k : string) :
  nullish s = false -> get s k = Ret (prop s k).
Proof. destruct s; simpl; intros; try discriminate; reflexivity. Qed.

Lemma ofind_find (p : value -> outcome bool) (q : value -> bool) (l : list value) :
  (forall s, nullish s = false -> p s = Ret (q s)) ->
  Forall (fun s => nullish s = false) l ->
  ofind p l = Ret (find q l).
Proof.
  intros Hp Hl. induction Hl as [|s l Hs _ IH]; simpl; [reflexivity|].
  rewrite (Hp s Hs). simpl. destruct (q s); [reflexivity|exact IH].
Qed.

Lemma is1080_av1080 (s : value) : nullish s = false -> is1080 s = Ret (av1080 s).
Proof.
  intros Hs. unfold is1080, av1080. rewrite !(get_prop s _ Hs). simpl.
  destruct (is_str (prop s "quality") "1080p"); reflexivity.
Qed.

Lemma is720_av720 (s : value) : nullish s = false -> is720 s = Ret (av720 s).
Proof.
  intros Hs. unfold is720, av720. rewrite !(get_prop s _ Hs). simpl.
  destruct (is_str (prop s "quality") "720p"); reflexivity.
Qed.

Lemma isMuxed_av (s : value) : nullish s = false -> isMuxed s = Ret (av s).
Proof. intros Hs. unfold isMuxed, av. rewrite (get_prop s _ Hs). reflexivity. Qed.

(** A value with an own [videoOnly] that is [false] is an object. *)
Lemma av_object (s : value) : av s = true -> truthy s = true /\ nullish s = false.
Proof. destruct s; simpl; try discriminate; auto. Qed.

Lemma av1080_av (s : value) : av1080 s = true -> av s = true.
Proof. unfold av1080. intros Hs. apply andb_prop in Hs. tauto. Qed.

Lemma av720_av (s : value) : av720 s = true -> av s = true.
Proof. unfold av720. intros Hs. apply andb_prop in Hs. tauto. Qed.

Lemma pickStream_preferred (data : value) (items : list value) :
  nullish data = false ->
  truthy (prop data "hls") = false ->
  or_else (prop data "videoStreams") (VArr []) = VArr items ->
  Forall (fun s => nullish s = false) items ->
  pickStream data = Ret (preferred_url items).
Proof.
  intros Hd Hhls Hvs Hitems. unfold pickStream, find_stream, preferred_url.
  rewrite !(get_prop data _ Hd). simpl. rewrite Hhls, Hvs. simpl.
  rewrite (ofind_find is1080 av1080 items is1080_av1080 Hitems). simpl.
  destruct (find av1080 items) as [s|] eqn:F1.
  - apply find_some in F1. destruct F1 as [_ F1].
    destruct (av_object s (av1080_av s F1)) as [Ht Hn].
    rewrite Ht. simpl. rewrite Ht. now apply get_prop.
  - simpl. rewrite (ofind_find is720 av720 items is720_av720 Hitems). simpl.
    destruct (find av720 items) as [s|] eqn:F2.
    + apply find_some in F2. destruct F2 as [_ F2].
      destruct (av_object s (av720_av s F2)) as [Ht Hn].
      rewrite Ht. simpl. rewrite Ht. now apply get_prop.
    + simpl. rewrite (ofind_find isMuxed av items isMuxed_av Hitems). simpl.
      destruct (find av items) as [s|] eqn:F3.
      * apply find_some in F3. destruct F3 as [_ F3].
        destruct (av_object s F3) as [Ht Hn].
        rewrite Ht. now apply get_prop.
      * reflexivity.
Qed.

Lemma find_exists {A} (p : A -> bool) (l : list A) (x : A) :
  In x l -> p x = true -> exists y, find p l = Some y.
Proof.
  intros Hin Hp. destruct (find p l) as [y|] eqn:F; [eauto|].
  rewrite (find_none p l F x Hin) in Hp. discriminate.
Qed.

Lemma ofind_first_1080 (pre post : list value) (s : value) :
  Forall (fun x => nullish x = false /\ av1080 x = false) pre ->
  av1080 s = true ->
  ofind is1080 (pre ++ s :: post) = Ret (Some s).
Proof.
  intros Hpre Hs. induction Hpre as [|x pre [Hx Ha] _ IH]; simpl.
  - destruct (av_object s (av1080_av s Hs)) as [_ Hn].
    now rewrite (is1080_av1080 s Hn), Hs.
  - rewrite (is1080_av1080 x Hx), Ha. simpl. exact IH.
Qed.

(** C5, as stated, fails on a stream list with a null entry ahead of
    the variants: the search for a 1080p variant reads the null entry
    and throws, and the answer is null although the list holds a 1080p
    and a 720p audio+video variant. *)
Lemma stream_preference_claimed_fails :
  getStreamUrl (onlineWeb nullFrontPayload) sampleConstants "abc" "YouTube" w0 =
    (Ret VNull,
     snd (fetchWithRotation (onlineWeb nullFrontPayload) "/streams/abc" w0)) /\
  preferred_url nullFrontStreams = VStr "https://cdn.example/1080.mp4" /\
  ~ stream_preference_claimed (onlineWeb nullFrontPayload) sampleConstants "abc" w0.
Proof.
  split; [reflexivity|]. split; [reflexivity|].
  intros Hclaim.
  specialize (Hclaim nullFrontPayload
    (snd (fetchWithRotation (onlineWeb nullFrontPayload) "/streams/abc" w0))
    nullFrontStreams eq_refl eq_refl eq_refl).
  vm_compute in Hclaim. discriminate Hclaim.
Qed.

(** C5, amended: for "YouTube", [getStreamUrl] returns null when the
    rotated fetch fails, and the payload's [hls] when it has one.
    Otherwise it searches the stream list in order for the first 1080p
    audio+video variant, then the first 720p one, then the first
    audio+video variant of any quality, and returns the URL of the
    first variant found, or null when none qualifies - provided every
    entry the searches read is something other than null and undefined:
    either no entry of the list is, or none ahead of the first 1080p
    variant is.  In particular a list of variant objects that holds a
    1080p audio+video variant yields the URL of such a variant,
    whatever 720p variants it also holds. *)
Theorem getStreamUrl_YouTube (H : Host) (C : Constants) (id' : string) (w : World) :
  (forall e w', fetchWithRotation H ("/streams/" ++ id') w = (Throw e, w') ->
     getStreamUrl H C id' "YouTube" w = (Ret VNull, w')) /\
  (forall data w',
     fetchWithRotation H ("/streams/" ++ id') w = (Ret data, w') ->
     nullish data = false ->
     (truthy (prop data "hls") = true ->
      getStreamUrl H C id' "YouTube" w = (Ret (prop data "hls"), w')) /\
     (forall items,
        truthy (prop data "hls") = false ->
        or_else (prop data "videoStreams") (VArr []) = VArr items ->
        Forall (fun s => nullish s = false) items ->
        getStreamUrl H C id' "YouTube" w = (Ret (preferred_url items), w'))) /\
  (forall items s, In s items -> av1080 s = true ->
     exists s', In s' items /\ av1080 s' = true /\ preferred_url items = prop s' "url") /\
  (forall data w' pre s post,
     fetchWithRotation H ("/streams/" ++ id') w = (Ret data, w') ->
     nullish data = false ->
     truthy (prop data "hls") = false ->
     prop data "videoStreams" = VArr (pre ++ s :: post) ->
     Forall (fun x => nullish x = false /\ av1080 x = false) pre ->
     av1080 s = true ->
     getStreamUrl H C id' "YouTube" w = (Ret (prop s "url"), w')).
Proof.
  split; [|split; [|split]].
  - intros e w' Hf. unfold getStreamUrl. rewrite String.eqb_refl.
    unfold try_catch, bind, lift. rewrite Hf. reflexivity.
  - intros data w' Hf Hd. unfold getStreamUrl. rewrite String.eqb_refl.
    unfold try_catch, bind, lift. rewrite Hf. split.
    + intros Hhls. unfold pickStream. rewrite (get_prop data _ Hd). simpl.
      rewrite Hhls. reflexivity.
    + intros items Hhls Hvs Hitems.
      rewrite (pickStream_preferred data items Hd Hhls Hvs Hitems). reflexivity.
  - intros items s Hin Hs. unfold preferred_url.
    destruct (find_exists av1080 items s Hin Hs) as [s' F]. rewrite F.
    apply find_some in F. exists s'. tauto.
  - intros data w' pre s post Hf Hd Hhls Hvs Hpre Hs.
    unfold getStreamUrl. rewrite String.eqb_refl.
    unfold try_catch, bind, lift. rewrite Hf.
    unfold pickStream, find_stream. rewrite !(get_prop data _ Hd). simpl.
    rewrite Hhls, Hvs. simpl.
    rewrite (ofind_first_1080 pre post s Hpre Hs). simpl.
    destruct (av_object s (av1080_av s Hs)) as [Ht Hn].
    rewrite Ht. simpl. rewrite Ht, (get_prop s _ Hn). reflexivity.
Qed.

Lemma getStreamUrl_YouTube_witness :
  getStreamUrl (onlineWeb streamsPayload) sampleConstants "abc" "YouTube" w0 =
  (Ret (VStr "https://cdn.example/1080.mp4"),
   snd (fetchWithRotation (onlineWeb streamsPayload) "/streams/abc" w0)).
Proof.
  refine (proj2 (proj1 (proj2
    (getStreamUrl_YouTube (onlineWeb streamsPayload) sampleConstants "abc" w0))
    streamsPayload
    (snd (fetchWithRotation (onlineWeb streamsPayload) "/streams/abc" w0)) _ _)
    sampleStreams _ _ _).
  - reflexivity.
  - reflexivity.
  - reflexivity.
  - reflexivity.
  - repeat constructor.
Defined.

Lemma find_app {A} (p : A -> bool) (l1 l2 : list A) :
  find p (l1 ++ l2)%list =
  match find p l1 with
  | Some x => Some x
  | None => find p l2
  end.
Proof.
  induction l1 as [|x l1 IH]; simpl; [reflexivity|].
  destruct (p x); [reflexivity|exact IH].
Qed.

Lemma allMocks_first (C : Constants) (id' : string) :
  find (fun v => id v =? id') (allMocks C) = first_in_sets id' (all_mock_sets C).
Proof.
  unfold allMocks, all_mock_sets. cbn [first_in_sets]. rewrite !find_app.
  repeat (destruct (find _ _); [reflexivity|]). reflexivity.
Qed.

(** C10, as stated, fails when an id occurs in two mock sets: the
    lookup stops at the first record with the id, here a TikTok record
    without a stream URL, and the sample URL is returned although the
    generic set holds a record with that id and a stream URL. *)
Lemma stream_url_claimed_fails :
  getStreamUrl offlineWeb collidingConstants "1" "TikTok" w0 =
    (Ret (VStr SAMPLE_URL), w0) /\
  stream_url_claimed collidingConstants "1" = "https://cdn.example/bbb.mp4" /\
  getStreamUrl offlineWeb collidingConstants "1" "TikTok" w0 <>
    (Ret (VStr (stream_url_claimed collidingConstants "1")), w0).
Proof.
  split; [reflexivity|]. split; [reflexivity|].
  vm_compute. discriminate.
Qed.

(** C10, amended: only "YouTube" can give null.  On every other platform
    token [getStreamUrl] returns a string and sends no request: the
    embed URL built from the id on "Dailymotion"; else the stream URL
    of the first mock record with that id, looking through the TikTok,
    Rumble, PeerTube and generic sets in that order, when that record
    has a stream URL; else the sample URL. *)
Theorem getStreamUrl_other (H : Host) (C : Constants) (id' platform : string) (w : World) :
  platform <> "YouTube" ->
  getStreamUrl H C id' platform w =
    (Ret (VStr (if platform =? "Dailymotion" then embed_url id'
                else mock_stream_url C id')), w) /\
  (forall w', getStreamUrl H C id' platform w <> (Ret VNull, w')).
Proof.
  intros Hp. apply String.eqb_neq in Hp.
  assert (Heq : getStreamUrl H C id' platform w =
    (Ret (VStr (if platform =? "Dailymotion" then embed_url id'
                else mock_stream_url C id')), w)).
  { unfold getStreamUrl, mock_stream_url, stream_url_or_sample. rewrite Hp.
    destruct (platform =? "Dailymotion"); [reflexivity|].
    rewrite allMocks_first.
    destruct (first_in_sets id' (all_mock_sets C)) as [[? ? ? ? ? ? ? ? ? [url|] ?]|];
      simpl; try reflexivity.
    destruct (url =? ""); reflexivity. }
  split; [exact Heq|].
  intros w'. rewrite Heq. discriminate.
Qed.

Lemma getStreamUrl_other_witness :
  getStreamUrl offlineWeb sampleConstants "t1" "TikTok" w0 =
    (Ret (VStr "https://cdn.example/t1.mp4"), w0) /\
  getStreamUrl offlineWeb sampleConstants "t2" "Vimeo" w0 = (Ret (VStr SAMPLE_URL), w0) /\
  getStreamUrl offlineWeb sampleConstants "x7" "Dailymotion" w0 =
    (Ret (VStr "https://www.dailymotion.com/embed/video/x7?autoplay=1"), w0).
Proof.
  split; [|split].
  - refine (proj1 (getStreamUrl_other offlineWeb sampleConstants "t1" "TikTok" w0 _)).
    discriminate.
  - refine (proj1 (getStreamUrl_other offlineWeb sampleConstants "t2" "Vimeo" w0 _)).
    discriminate.
  - refine (proj1 (getStreamUrl_other offlineWeb sampleConstants "x7" "Dailymotion" w0 _)).
    discriminate.
Defined.

(** *** Trending and search *)

Lemma not_recognized (platform : string) :
  ~ In platform recognized ->
  (platform =? "YouTube") = false /\ (platform =? "All") = false /\
  (platform =? "Dailymotion") = false /\ (platform =? "PeerTube") = false /\
  (platform =? "TikTok") = false /\ (platform =? "Rumble") = false /\
  (platform =? "Bandcamp") = false.
Proof.
  intros Hn. repeat split; apply String.eqb_neq; intros ->; apply Hn; simpl; tauto.
Qed.

(** C9: on a provider token outside the recognized ones, [getTrending]
    returns the generic mock set as it is and [search] returns the
    generic mock set filtered by title, with no bypass for short queries
    and no fallback to the whole set; neither touches the world, so no
    request is sent. *)
Theorem unrecognized_provider (E : Engine) (H : Host) (C : Constants)
    (platform query : string) (country : option string) (w : World) :
  ~ In platform recognized ->
  getTrending E H C platform country w = (Ret (map box (MOCK_VIDEOS C)), w) /\
  search E H C query platform w =
    (Ret (map box (filter (titleMatches E query) (MOCK_VIDEOS C))), w).
Proof.
  intros Hn.
  destruct (not_recognized platform Hn) as (Hy & Ha & Hd & Hp & Ht & Hr & Hb).
  unfold getTrending, getTrending_try, search, search_try, try_catch.
  rewrite Hy, Ha, Hd, Hp, Ht, Hr, Hb. split; reflexivity.
Qed.

Lemma unrecognized_provider_witness :
  getTrending asciiEngine offlineWeb sampleConstants "Vimeo" None w0 =
    (Ret (map box (MOCK_VIDEOS sampleConstants)), w0) /\
  search asciiEngine offlineWeb sampleConstants "BUNNY" "Vimeo" w0 =
    (Ret [box (mock "m1" "Big Buck Bunny" "YouTube" None)], w0).
Proof.
  refine (unrecognized_provider asciiEngine offlineWeb sampleConstants
            "Vimeo" "BUNNY" None w0 _).
  simpl. intros Hin. repeat (destruct Hin as [Hin|Hin]; [discriminate|]). exact Hin.
Defined.

(** C3, as stated, fails: on a query of three characters or more that
    matches no title, the live path of "TikTok" returns the empty list,
    not the whole mock set. *)
Lemma mock_search_claimed_fails :
  search asciiEngine offlineWeb sampleConstants "xyz_no_match_query" "TikTok" w0 =
    (Ret [], w0) /\
  search asciiEngine offlineWeb sampleConstants "xyz_no_match_query" "TikTok" w0 <>
    (Ret (map box (mock_search_claimed asciiEngine "xyz_no_match_query"
                     (MOCK_TIKTOK_VIDEOS sampleConstants))), w0) /\
  mock_search_claimed asciiEngine "xyz_no_match_query"
    (MOCK_TIKTOK_VIDEOS sampleConstants) = MOCK_TIKTOK_VIDEOS sampleConstants.
Proof.
  split; [reflexivity|]. split; [|reflexivity].
  vm_compute. discriminate.
Qed.

Lemma filter_or_const {A} (f : A -> bool) (b : bool) (l : list A) :
  filter (fun v => f v || b) l = if b then l else filter f l.
Proof.
  destruct b.
  - induction l as [|x l IH]; simpl; [reflexivity|].
    rewrite orb_true_r. now rewrite IH.
  - apply filter_ext. intros x. apply orb_false_r.
Qed.

(** C3, amended: for "TikTok" and "Rumble", [search] sends no request
    and returns the provider's mock set whole when the query is under
    three characters, and otherwise the records whose title contains the
    query, case-insensitively: possibly none. *)
Theorem search_mock_backed (E : Engine) (H : Host) (C : Constants)
    (query : string) (w : World) :
  search E H C query "TikTok" w =
    (Ret (map box (if (String.length query <? 3)%nat then MOCK_TIKTOK_VIDEOS C
                   else filter (titleMatches E query) (MOCK_TIKTOK_VIDEOS C))), w) /\
  search E H C query "Rumble" w =
    (Ret (map box (if (String.length query <? 3)%nat then MOCK_RUMBLE_VIDEOS C
                   else filter (titleMatches E query) (MOCK_RUMBLE_VIDEOS C))), w).
Proof.
  unfold search, search_try, try_catch, ret.
  change ("TikTok" =? "YouTube") with false. change ("TikTok" =? "All") with false.
  change ("TikTok" =? "Dailymotion") with false. change ("TikTok" =? "PeerTube") with false.
  change ("TikTok" =? "TikTok") with true.
  change ("Rumble" =? "YouTube") with false. change ("Rumble" =? "All") with false.
  change ("Rumble" =? "Dailymotion") with false. change ("Rumble" =? "PeerTube") with false.
  change ("Rumble" =? "TikTok") with false. change ("Rumble" =? "Rumble") with true.
  cbn [orb]. rewrite !filter_or_const. split; reflexivity.
Qed.

(** A live trending call in a browser: the entry is mapped, the date
    defaults, and one request went out. *)
Lemma trending_example :
  getTrending asciiEngine (onlineWeb (VArr [trendingItem])) sampleConstants "All" None w0 =
    (Ret [{| o_id := VStr "aqz-KE-bpKQ"; o_title := VStr "Big Buck Bunny";
             o_uploader := VStr "Blender"; o_views := VStr "1.5M";
             o_date := VStr "Recently"; o_duration := VStr "1:01:01";
             o_thumbnail := VStr "https://i.example/bbb.jpg";
             o_platform := VStr "YouTube";
             o_avatar := VStr "https://i.example/blender.jpg";
             o_isShort := VBool false; o_streamUrl := VUndefined |}],
     {| activeInstanceIndex := 0;
        trace := [WebFetch "https://pipedapi.kavin.rocks/trending?region=US"] |}).
Proof. reflexivity. Qed.

(** *** Fallback policy *)

(** C1, as stated, fails: in a browser without network a search of
    "PeerTube" for "cat" returns the one mock record whose title
    contains the query, not the PeerTube mock set; and the trending
    fallback of "PeerTube" adds no delay to the failed call. *)
Lemma fallback_claimed_fails :
  fst (search_try asciiEngine offlineWeb sampleConstants "cat" "PeerTube" w0) =
    Throw (Error "Web Fetch Failed") /\
  fst (search asciiEngine offlineWeb sampleConstants "cat" "PeerTube" w0) =
    Ret [box (mock "p1" "Cat Video" "PeerTube" None)] /\
  trace (snd (getTrending asciiEngine offlineWeb sampleConstants "PeerTube" None w0)) =
    trace (snd (getTrending_try asciiEngine offlineWeb sampleConstants "PeerTube" "US" w0)) /\
  ~ fallback_claimed asciiEngine offlineWeb sampleConstants "PeerTube" "cat" None w0.
Proof.
  split; [reflexivity|]. split; [reflexivity|]. split; [reflexivity|].
  intros [_ Hs].
  specialize (Hs (Error "Web Fetch Failed")
                 (snd (search_try asciiEngine offlineWeb sampleConstants "cat" "PeerTube" w0))
                 eq_refl).
  vm_compute in Hs. discriminate.
Qed.

Lemma mock_set_for_eq (C : Constants) (platform : string) :
  mock_set_for C platform = search_fallback_set C platform.
Proof.
  unfold mock_set_for, search_fallback_set. cbn [find fst snd].
  destruct (platform =? "TikTok"); [reflexivity|].
  destruct (platform =? "Rumble"); [reflexivity|].
  destruct (platform =? "PeerTube"); reflexivity.
Qed.

Lemma getTrending_catch_returns (H : Host) (C : Constants) (platform : string) (w : World) :
  getTrending_catch C (isNativePlatform H) platform w =
  if isNativePlatform H
  then (Ret [], emit (ConsoleError "[StreamService] Trending Error:") w)
  else (Ret (map box (mock_set_for C platform)),
        if has_own_mock_set platform then w else emit (Sleep 800) w).
Proof.
  unfold getTrending_catch, has_own_mock_set. rewrite mock_set_for_eq.
  unfold search_fallback_set.
  destruct (isNativePlatform H); [reflexivity|]. cbn [negb].
  destruct (platform =? "TikTok"); [reflexivity|].
  destruct (platform =? "Rumble"); [reflexivity|].
  destruct (platform =? "PeerTube"); reflexivity.
Qed.

Lemma search_catch_returns (E : Engine) (H : Host) (C : Constants)
    (query platform : string) (w : World) :
  search_catch E C (isNativePlatform H) query platform w =
  if isNativePlatform H
  then (Ret [], emit (ConsoleError "[StreamService] Search Error:") w)
  else (Ret (map box (search_fallback E C query platform)), emit (Sleep 800) w).
Proof.
  unfold search_catch, search_fallback. rewrite mock_set_for_eq.
  destruct (isNativePlatform H); [reflexivity|]. cbn [negb].
  unfold bind, sleep, ret. do 2 f_equal. f_equal.
  destruct (filter (titleMatches E query) (search_fallback_set C platform));
    reflexivity.
Qed.

(** C1, amended: [getTrending] and [search] never throw.  When the
    dispatched call fails, in a native context both log the error and
    return the empty list.  In a non-native context [getTrending]
    returns the provider's mock set, at once for the providers that have
    a set of their own and after the 800 ms delay for the generic set;
    [search] waits 800 ms and returns the records of the provider's mock
    set whose title contains the query, or the whole set when none
    does. *)
Theorem fallback_policy (E : Engine) (H : Host) (C : Constants)
    (platform query : string) (country : option string) (w : World) :
  (exists l w', getTrending E H C platform country w = (Ret l, w')) /\
  (exists l w', search E H C query platform w = (Ret l, w')) /\
  (forall e w1,
     getTrending_try E H C platform (country_or_default country) w = (Throw e, w1) ->
     getTrending E H C platform country w =
     if isNativePlatform H
     then (Ret [], emit (ConsoleError "[StreamService] Trending Error:") w1)
     else (Ret (map box (mock_set_for C platform)),
           if has_own_mock_set platform then w1 else emit (Sleep 800) w1)) /\
  (forall e w1,
     search_try E H C query platform w = (Throw e, w1) ->
     search E H C query platform w =
     if isNativePlatform H
     then (Ret [], emit (ConsoleError "[StreamService] Search Error:") w1)
     else (Ret (map box (search_fallback E C query platform)), emit (Sleep 800) w1)).
Proof.
  unfold getTrending, search, try_catch.
  fold (country_or_default country).
  repeat split.
  - destruct (getTrending_try E H C platform (country_or_default country) w)
      as [[l|e] w1]; [eauto|].
    rewrite getTrending_catch_returns. destruct (isNativePlatform H); eauto.
  - destruct (search_try E H C query platform w) as [[l|e] w1]; [eauto|].
    rewrite search_catch_returns. destruct (isNativePlatform H); eauto.
  - intros e w1 Hf. rewrite Hf. apply getTrending_catch_returns.
  - intros e w1 Hf. rewrite Hf. apply search_catch_returns.
Qed.

Lemma fallback_policy_witness :
  getTrending asciiEngine offlineWeb sampleConstants "Dailymotion" None w0 =
    (Ret (map box (MOCK_VIDEOS sampleConstants)),
     emit (Sleep 800)
       (snd (getTrending_try asciiEngine offlineWeb sampleConstants
               "Dailymotion" "US" w0))) /\
  search asciiEngine offlineNative sampleConstants "cat" "All" w0 =
    (Ret [],
     emit (ConsoleError "[StreamService] Search Error:")
       (snd (search_try asciiEngine offlineNative sampleConstants "cat" "All" w0))).
Proof.
  split.
  - refine (proj1 (proj2 (proj2
      (fallback_policy asciiEngine offlineWeb sampleConstants
         "Dailymotion" "cat" None w0))) (Error "Web Fetch Failed") _ _).
    reflexivity.
  - refine (proj2 (proj2 (proj2
      (fallback_policy asciiEngine offlineNative sampleConstants
         "All" "cat" None w0))) AllInstancesExhausted _ _).
    reflexivity.
Defined.

(** *** Normalizers *)

(** C4, as stated, fails on the raw item with no field at all: the
    Dailymotion mapper leaves [id], [title] and [thumbnail] undefined,
    and the PeerTube and YouTube mappers throw. *)
Lemma completeness_claimed_fails :
  dailymotionRecord asciiEngine (VObj []) =
    Ret {| o_id := VUndefined; o_title := VUndefined; o_uploader := VStr "Unknown";
           o_views := VStr "0"; o_date := VStr "Recently"; o_duration := VStr "00:00";
           o_thumbnail := VUndefined; o_platform := VStr "Dailymotion";
           o_avatar := VStr ""; o_isShort := VUndefined; o_streamUrl := VUndefined |} /\
  peerTubeRecord asciiEngine (VObj []) = Throw TypeError /\
  youtubeRecord asciiEngine (VObj []) = Throw TypeError /\
  ~ completeness_claimed (dailymotionRecord asciiEngine) (VObj []) /\
  ~ completeness_claimed (peerTubeRecord asciiEngine) (VObj []) /\
  ~ completeness_claimed (youtubeRecord asciiEngine) (VObj []).
Proof.
  repeat split; try reflexivity; intros [r [Hr Hp]]; vm_compute in Hr;
    try discriminate Hr.
  injection Hr as <-. vm_compute in Hp. discriminate Hp.
Qed.

(** Peel one [let!] off a hypothesis that says a mapper returned. *)
Ltac returned H :=
  repeat match type of H with
         | obind ?x _ = Ret _ =>
             let a := fresh "a" in
             let Ea := fresh "Ea" in
             destruct x as [a|] eqn:Ea; cbn [obind] in H; [|discriminate H]
         end.

Lemma returned_nonnullish {A} (v : value) (k : string) (f : value -> outcome A) (r : A) :
  obind (get v k) f = Ret r -> nullish v = false.
Proof. destruct v; simpl; intros; try discriminate; reflexivity. Qed.

Lemma formatViews_absent (E : Engine) : formatViews E VUndefined = Ret "0".
Proof. reflexivity. Qed.

Lemma formatDuration_absent (E : Engine) : formatDuration E VUndefined = Ret "00:00".
Proof. reflexivity. Qed.

Lemma truthy_nonnullish (a : value) : truthy a = true -> nullish a = false.
Proof. destruct a; simpl; intros; try discriminate; reflexivity. Qed.

Lemma or_else_nonnullish (a : value) (s : string) : nullish (or_else a (VStr s)) = false.
Proof.
  unfold or_else. destruct (truthy a) eqn:Ha; [now apply truthy_nonnullish|reflexivity].
Qed.

(** Close a goal about a raw field that is absent. *)
Ltac absent :=
  intros; unfold is_string;
  repeat match goal with
         | Ha : prop _ _ = VUndefined |- _ => try rewrite Ha in *; clear Ha
         end;
  rewrite ?formatViews_absent, ?formatDuration_absent in *;
  cbn [truthy get_opt get obind] in *;
  repeat match goal with
         | Hx : Ret _ = Ret ?x |- _ => is_var x; injection Hx as <-
         end;
  solve [eauto | congruence | reflexivity].

(** What the three mappers put in each field, on an item on which they
    return. *)
Lemma normalizer_fields (E : Engine) (v : value) (r : VideoObject) :
  (dailymotionRecord E v = Ret r ->
     o_platform r = VStr "Dailymotion" /\ o_date r = VStr "Recently" /\
     is_string (o_views r) /\ is_string (o_duration r) /\
     (prop v "views_total" = VUndefined -> o_views r = VStr "0") /\
     (prop v "duration" = VUndefined -> o_duration r = VStr "00:00") /\
     (prop v "owner" = VUndefined ->
      o_uploader r = VStr "Unknown" /\ o_avatar r = VStr "") /\
     o_id r = prop v "id" /\ o_title r = prop v "title" /\
     o_thumbnail r = prop v "thumbnail_720_url") /\
  (peerTubeRecord E v = Ret r ->
     o_platform r = VStr "PeerTube" /\ o_avatar r = VStr "" /\
     is_string (o_views r) /\ is_string (o_duration r) /\ is_string (o_date r) /\
     (prop v "views" = VUndefined -> o_views r = VStr "0") /\
     (prop v "duration" = VUndefined -> o_duration r = VStr "00:00") /\
     (prop v "publishedAt" = VUndefined -> o_date r = VStr "Recently") /\
     (prop v "account" = VUndefined -> o_uploader r = VStr "PeerTube User") /\
     (prop v "thumbnailUrl" = VUndefined -> prop v "previewPath" = VUndefined ->
      o_thumbnail r = VStr "") /\
     nullish (o_id r) = false /\ nullish (o_uploader r) = false /\
     nullish (o_thumbnail r) = false /\
     o_title r = (if truthy (prop v "name") then prop v "name"
                  else prop (prop v "option") "name")) /\
  (youtubeRecord E v = Ret r ->
     o_platform r = VStr "YouTube" /\
     is_string (o_views r) /\ is_string (o_duration r) /\
     (prop v "views" = VUndefined -> o_views r = VStr "0") /\
     (prop v "duration" = VUndefined -> o_duration r = VStr "00:00") /\
     (prop v "uploadedDate" = VUndefined -> o_date r = VStr "Recently") /\
     nullish (o_date r) = false /\
     o_title r = prop v "title" /\ o_uploader r = prop v "uploaderName" /\
     o_thumbnail r = prop v "thumbnail" /\ o_avatar r = prop v "uploaderAvatar").
Proof.
  split; [|split]; intros Hr;
    pose proof (returned_nonnullish _ _ _ _ Hr) as Hv;
    [unfold dailymotionRecord in Hr|unfold peerTubeRecord in Hr|unfold youtubeRecord in Hr];
    rewrite !(get_prop v _ Hv) in Hr; cbn [obind] in Hr; returned Hr;
    injection Hr as <-; cbn;
    repeat split; try solve [absent].
  - destruct (truthy (prop v "uuid")) eqn:Hu.
    + injection Ea as <-. now apply truthy_nonnullish.
    + returned Ea. injection Ea as <-. reflexivity.
  - apply or_else_nonnullish.
  - destruct (truthy (prop v "thumbnailUrl")) eqn:Ht.
    + injection Ea5 as <-. now apply truthy_nonnullish.
    + cbn [obind] in Ea5. destruct (truthy (prop v "previewPath")).
      * returned Ea5. injection Ea5 as <-. reflexivity.
      * injection Ea5 as <-. reflexivity.
  - destruct (truthy (prop v "name")).
    + congruence.
    + cbn [obind] in Ea0. unfold get_opt in Ea0.
      destruct (prop v "option"); simpl in *; congruence.
  - apply or_else_nonnullish.
Qed.

Lemma formatViews_primitive (E : Engine) (v : value) :
  primitive v = true -> exists s, formatViews E v = Ret s.
Proof.
  intros Hp. unfold formatViews.
  destruct v; try discriminate Hp; simpl; repeat (break_match; simpl); eauto.
Qed.

Lemma formatDuration_primitive (E : Engine) (v : value) :
  primitive v = true -> exists s, formatDuration E v = Ret s.
Proof.
  intros Hp. unfold formatDuration.
  destruct v; try discriminate Hp; simpl; repeat (break_match; simpl); eauto.
Qed.

Lemma ToString_primitive (E : Engine) (v : value) :
  primitive v = true -> exists s, ToString E v = Ret s.
Proof. destruct v; simpl; intros; try discriminate; eauto. Qed.

Lemma ToPrimitive_primitive (E : Engine) (v : value) :
  primitive v = true -> ToPrimitive E v = Ret v.
Proof. destruct v; simpl; intros; try discriminate; reflexivity. Qed.

Lemma get_opt_prop (v : value) (k : string) : get_opt v k = Ret (prop v k).
Proof. destruct v; reflexivity. Qed.

Lemma youtube_id_of_url (E : Engine) (v : value) (r : VideoObject) :
  youtubeRecord E v = Ret r ->
  exists url, prop v "url" = VStr url /\ o_id r = second (split url "v=").
Proof.
  intros Hr. pose proof (returned_nonnullish _ _ _ _ Hr) as Hv.
  unfold youtubeRecord in Hr. rewrite !(get_prop v _ Hv) in Hr.
  cbn [obind] in Hr.
  destruct (prop v "url") as [| | | |url| |]; try discriminate Hr.
  cbn [obind] in Hr. returned Hr. injection Hr as <-. exists url. now split.
Qed.

(** C4, amended.  No mapper crashes on a missing raw field, except the
    YouTube mapper on a missing [url] and the PeerTube mapper on an item
    with neither [uuid] nor [id]: on every item other than null and
    undefined, the Dailymotion mapper returns when the view count and
    the duration are absent or primitive values, the PeerTube mapper
    when moreover [publishedAt] and [previewPath] are absent or
    primitive and the item has a truthy [uuid] or a primitive [id], and
    the YouTube mapper when [url] is a string and the view count and the
    duration are absent or primitive.

    On every raw item on which a mapper returns, the platform tag is the
    mapper's own and the view-count and duration are strings, "0" and
    "00:00" when the raw field is absent.  The date is "Recently" for
    Dailymotion always and for the other two when the raw date is
    absent.  For Dailymotion an absent owner gives the uploader
    "Unknown" and the avatar ""; for PeerTube the avatar is "", the
    uploader is "PeerTube User" without an account, the thumbnail is ""
    without thumbnail and preview, and identifier, uploader and
    thumbnail are never undefined or null.  The YouTube identifier is
    what follows the first "v=" of [url], undefined when [url] holds no
    "v=".  Every other field is the raw field as it is, undefined when
    the raw field is absent. *)
Theorem normalizer_defaults (E : Engine) (v : value) (r : VideoObject) :
  (dailymotionRecord E v = Ret r ->
     o_platform r = VStr "Dailymotion" /\ o_date r = VStr "Recently" /\
     is_string (o_views r) /\ is_string (o_duration r) /\
     (prop v "views_total" = VUndefined -> o_views r = VStr "0") /\
     (prop v "duration" = VUndefined -> o_duration r = VStr "00:00") /\
     (prop v "owner" = VUndefined ->
      o_uploader r = VStr "Unknown" /\ o_avatar r = VStr "") /\
     o_id r = prop v "id" /\ o_title r = prop v "title" /\
     o_thumbnail r = prop v "thumbnail_720_url") /\
  (peerTubeRecord E v = Ret r ->
     o_platform r = VStr "PeerTube" /\ o_avatar r = VStr "" /\
     is_string (o_views r) /\ is_string (o_duration r) /\ is_string (o_date r) /\
     (prop v "views" = VUndefined -> o_views r = VStr "0") /\
     (prop v "duration" = VUndefined -> o_duration r = VStr "00:00") /\
     (prop v "publishedAt" = VUndefined -> o_date r = VStr "Recently") /\
     (prop v "account" = VUndefined -> o_uploader r = VStr "PeerTube User") /\
     (prop v "thumbnailUrl" = VUndefined -> prop v "previewPath" = VUndefined ->
      o_thumbnail r = VStr "") /\
     nullish (o_id r) = false /\ nullish (o_uploader r) = false /\
     nullish (o_thumbnail r) = false /\
     o_title r = (if truthy (prop v "name") then prop v "name"
                  else prop (prop v "option") "name")) /\
  (youtubeRecord E v = Ret r ->
     (o_platform r = VStr "YouTube" /\
      is_string (o_views r) /\ is_string (o_duration r) /\
      (prop v "views" = VUndefined -> o_views r = VStr "0") /\
      (prop v "duration" = VUndefined -> o_duration r = VStr "00:00") /\
      (prop v "uploadedDate" = VUndefined -> o_date r = VStr "Recently") /\
      nullish (o_date r) = false /\
      o_title r = prop v "title" /\ o_uploader r = prop v "uploaderName" /\
      o_thumbnail r = prop v "thumbnail" /\ o_avatar r = prop v "uploaderAvatar") /\
     (exists url, prop v "url" = VStr url /\ o_id r = second (split url "v="))) /\
  (nullish v = false ->
   primitive (prop v "views_total") = true -> primitive (prop v "duration") = true ->
   exists r', dailymotionRecord E v = Ret r') /\
  (nullish v = false ->
   truthy (prop v "uuid") = true \/
     (nullish (prop v "id") = false /\ primitive (prop v "id") = true) ->
   primitive (prop v "views") = true -> primitive (prop v "duration") = true ->
   primitive (prop v "publishedAt") = true -> primitive (prop v "previewPath") = true ->
   exists r', peerTubeRecord E v = Ret r') /\
  (nullish v = false ->
   (exists url, prop v "url" = VStr url) ->
   primitive (prop v "views") = true -> primitive (prop v "duration") = true ->
   exists r', youtubeRecord E v = Ret r').
Proof.
  destruct (normalizer_fields E v r) as (Hdm & Hpt & Hyt).
  split; [exact Hdm|]. split; [exact Hpt|].
  split; [intros Hr; split; [exact (Hyt Hr)|exact (youtube_id_of_url E v r Hr)]|].
  split; [|split].
  - intros Hv Hviews Hdur. unfold dailymotionRecord.
    rewrite !(get_prop v _ Hv). cbn [obind].
    destruct (formatViews_primitive E _ Hviews) as [sv ->].
    destruct (formatDuration_primitive E _ Hdur) as [sd ->].
    destruct (truthy (prop v "owner")) eqn:Ho.
    + rewrite !(get_prop _ _ (truthy_nonnullish _ Ho)). cbn [obind]. eauto.
    + cbn [obind]. eauto.
  - intros Hv Hid Hviews Hdur Hpub Hprev. unfold peerTubeRecord.
    rewrite !(get_prop v _ Hv). cbn [obind]. rewrite !get_opt_prop.
    assert (Hidr : exists i,
      (if truthy (prop v "uuid") then Ret (prop v "uuid")
       else let! s := call_toString E (prop v "id") in Ret (VStr s)) = Ret i).
    { destruct Hid as [Hu|[Hn Hp]]; [rewrite Hu; eauto|].
      destruct (truthy (prop v "uuid")); [eauto|].
      destruct (ToString_primitive E _ Hp) as [s Hs].
      unfold call_toString.
      destruct (prop v "id"); simpl in *; try discriminate; eauto;
        rewrite Hs; simpl; eauto. }
    destruct Hidr as [i ->]. cbn [obind].
    assert (Htitle : exists t,
      (if truthy (prop v "name") then Ret (prop v "name")
       else Ret (prop (prop v "option") "name")) = Ret t)
      by (destruct (truthy (prop v "name")); eauto).
    destruct Htitle as [t ->]. cbn [obind].
    destruct (formatViews_primitive E _ Hviews) as [sv ->]. cbn [obind].
    assert (Hdate : exists d,
      (if truthy (prop v "publishedAt")
       then let! p := ToPrimitive E (prop v "publishedAt") in
            Ret (toLocaleDateString E p)
       else Ret "Recently") = Ret d).
    { rewrite (ToPrimitive_primitive E _ Hpub). cbn [obind].
      destruct (truthy (prop v "publishedAt")); eauto. }
    destruct Hdate as [d ->]. cbn [obind].
    destruct (formatDuration_primitive E _ Hdur) as [sd ->]. cbn [obind].
    assert (Hthumb : exists th,
      (if truthy (prop v "thumbnailUrl") then Ret (prop v "thumbnailUrl")
       else if truthy (prop v "previewPath")
            then let! p := ToString E (prop v "previewPath") in
                 Ret (VStr ("https://sepiasearch.org" ++ p))
            else Ret (VStr "")) = Ret th).
    { destruct (ToString_primitive E _ Hprev) as [s ->]. cbn [obind].
      destruct (truthy (prop v "thumbnailUrl")); [eauto|].
      destruct (truthy (prop v "previewPath")); eauto. }
    destruct Hthumb as [th ->]. cbn [obind]. eauto.
  - intros Hv [url Hu] Hviews Hdur. unfold youtubeRecord.
    rewrite !(get_prop v _ Hv), Hu. cbn [obind].
    destruct (formatViews_primitive E _ Hviews) as [sv ->]. cbn [obind].
    destruct (formatDuration_primitive E _ Hdur) as [sd ->]. cbn [obind].
    eauto.
Qed.

Lemma normalizer_defaults_witness :
  dailymotionRecord asciiEngine bareItem = Ret bareRecord /\
  o_views bareRecord = VStr "0" /\
  o_duration bareRecord = VStr "00:00" /\
  o_uploader bareRecord = VStr "Unknown" /\
  o_thumbnail bareRecord = prop bareItem "thumbnail_720_url".
Proof.
  split; [reflexivity|].
  destruct (proj1 (normalizer_defaults asciiEngine bareItem bareRecord) eq_refl)
    as (_ & _ & _ & _ & Hviews & Hduration & Howner & _ & _ & Hthumb).
  split; [exact (Hviews eq_refl)|].
  split; [exact (Hduration eq_refl)|].
  split; [exact (proj1 (Howner eq_refl))|exact Hthumb].
Defined.

(** ** Further properties of the service *)

(** *** Rotation: cursor and requests *)

Lemma nativeFetch_trace (H : Host) (url : string) (w : World) :
  exists new,
    trace (snd (nativeFetch H url w)) = (new ++ trace w)%list /\
    (new = [NativeGet url] \/ new = [WebFetch url] \/
     new = [WebFetch (CORS_PROXY ++ url); WebFetch url]).
Proof.
  unfold nativeFetch, try_catch, direct_fetch, proxy_fetch, bind,
    CapacitorHttp_get, window_fetch, ret, throw.
  repeat (simpl; break_match);
    (exists [NativeGet url]; split; [reflexivity|tauto]) ||
    (exists [WebFetch url]; split; [reflexivity|tauto]) ||
    (exists [WebFetch (CORS_PROXY ++ url); WebFetch url]; split; [reflexivity|tauto]).
Qed.

Lemma nativeFetch_head (H : Host) (url : string) (w : World) :
  exists e rest, trace (snd (nativeFetch H url w)) = e :: rest /\ serves url e.
Proof.
  destruct (nativeFetch_trace H url w) as [new [Ht [Hn|[Hn|Hn]]]];
    rewrite Ht, Hn; simpl; eexists; eexists; (split; [reflexivity|]);
    unfold serves; tauto.
Qed.

Lemma adopt_trace (p k : nat) (w : World) : trace (adopt p k w) = trace w.
Proof. unfold adopt. destruct (_ =? _)%nat; reflexivity. Qed.

Lemma adopt_cursor (p k : nat) (w : World) :
  activeInstanceIndex w = p ->
  activeInstanceIndex (adopt p k w) = ((p + k) mod poolSize)%nat.
Proof.
  intros Hw. unfold adopt, poolSize.
  destruct (Nat.eqb_spec ((p + k) mod List.length PIPED_INSTANCES) p) as [Hk|Hk];
    [congruence|reflexivity].
Qed.

Lemma mod_pool_lt (n : nat) : (n mod poolSize < poolSize)%nat.
Proof. apply Nat.mod_upper_bound. discriminate. Qed.

(** What the loop does to the world, whatever the number of attempts
    left: it sends between [left] and [2 * left] requests when it gives
    up, at least one when it succeeds, and nothing but requests. *)
Lemma rotation_loop_evolves (H : Host) (path : string) (left k : nat) (w : World) :
  exists new,
    evolves w (snd (rotation_loop H path left k w)) new /\
    forallb is_request new = true /\
    (List.length new <= 2 * left)%nat /\
    (left <> 0%nat -> new <> []).
Proof.
  revert k w. induction left as [|left IH]; intros k w.
  - exists []. repeat split; auto; try (now left); congruence.
  - rewrite rotation_step.
    pose proof (attempt_index H path (activeInstanceIndex w) k w) as Hi.
    destruct (nativeFetch_trace H
      (nth ((activeInstanceIndex w + k) mod List.length PIPED_INSTANCES)
           PIPED_INSTANCES "" ++ path) w) as [new [Ht Hn]].
    fold (attempt H path (activeInstanceIndex w) k) in Ht.
    assert (Hreq : forallb is_request new = true /\
                   (1 <= List.length new <= 2)%nat).
    { destruct Hn as [-> | [-> | ->]]; simpl; split; auto; lia. }
    destruct Hreq as [Hreq Hlen].
    destruct (attempt H path (activeInstanceIndex w) k w) as [[d|e] w1];
      simpl in Hi, Ht.
    + exists new. simpl. repeat split.
      * now rewrite adopt_trace.
      * right. rewrite (adopt_cursor _ _ _ Hi). apply mod_pool_lt.
      * exact Hreq.
      * lia.
      * intros _ ->. simpl in Hlen. lia.
    + destruct (IH (S k) w1) as [new' [[Ht' Hc'] [Hreq' [Hlen' _]]]].
      exists (new' ++ new)%list. repeat split.
      * rewrite Ht', Ht. now rewrite app_assoc.
      * rewrite Hi in Hc'. exact Hc'.
      * rewrite forallb_app, Hreq', Hreq. reflexivity.
      * rewrite length_app. lia.
      * intros _ Hnil. apply app_eq_nil in Hnil. destruct Hnil as [_ ->].
        simpl in Hlen. lia.
Qed.

(** X1: a rotated fetch never erases the trace, adds between one and six
    events to it, all of them requests, and leaves the cursor either
    where it was or on an index of the pool: a cursor inside the pool
    stays inside the pool. *)
Theorem fetchWithRotation_evolves (H : Host) (path : string) (w : World) :
  exists new,
    evolves w (snd (fetchWithRotation H path w)) new /\
    forallb is_request new = true /\
    (1 <= List.length new <= 6)%nat /\
    ((activeInstanceIndex w < poolSize)%nat ->
     (activeInstanceIndex (snd (fetchWithRotation H path w)) < poolSize)%nat).
Proof.
  destruct (rotation_loop_evolves H path maxAttempts 0 w)
    as [new [Hev [Hreq [Hlen Hne]]]].
  fold (fetchWithRotation H path w) in Hev. unfold maxAttempts in Hlen, Hne.
  exists new. split; [exact Hev|]. split; [exact Hreq|]. split; [split|].
  - destruct new; [exfalso; apply Hne; [discriminate|reflexivity]|simpl; lia].
  - simpl in Hlen. exact Hlen.
  - intros Hw. destruct Hev as [_ [Hc|Hc]]; [rewrite Hc|]; assumption.
Qed.

Lemma fetchWithRotation_evolves_witness :
  (activeInstanceIndex
     (snd (fetchWithRotation (oneMirrorWeb VNull) "/streams/x" w0)) < poolSize)%nat.
Proof.
  destruct (fetchWithRotation_evolves (oneMirrorWeb VNull) "/streams/x" w0)
    as [new [_ [_ [_ Hin]]]].
  apply Hin. unfold poolSize. simpl. lia.
Defined.

(** X2: when the cursor is inside the pool and the preferred mirror
    answers, the rotated fetch is exactly that one transport call: same
    payload, same world, cursor untouched. *)
Theorem fetchWithRotation_preferred (H : Host) (path : string) (w w' : World)
    (data : value) :
  (activeInstanceIndex w < poolSize)%nat ->
  nativeFetch H (nth (activeInstanceIndex w) PIPED_INSTANCES "" ++ path) w =
    (Ret data, w') ->
  fetchWithRotation H path w = (Ret data, w').
Proof.
  intros Hw Hf. unfold fetchWithRotation, maxAttempts. rewrite rotation_step.
  pose proof (attempt_index H path (activeInstanceIndex w) 0 w) as Hi.
  unfold attempt in *. unfold poolSize in Hw.
  rewrite Nat.add_0_r, (Nat.mod_small _ _ Hw) in *.
  rewrite Hf in *. simpl in Hi. unfold adopt.
  rewrite Nat.add_0_r, (Nat.mod_small _ _ Hw), Nat.eqb_refl. reflexivity.
Qed.

Lemma fetchWithRotation_preferred_witness :
  fetchWithRotation (onlineWeb VNull) "/streams/x" w0 =
    (Ret VNull,
     {| activeInstanceIndex := 0;
        trace := [WebFetch "https://pipedapi.kavin.rocks/streams/x"] |}).
Proof.
  apply fetchWithRotation_preferred.
  - unfold poolSize. simpl. lia.
  - reflexivity.
Defined.

Lemma rotation_loop_served (H : Host) (path : string) (left k : nat)
    (w w' : World) (data : value) :
  rotation_loop H path left k w = (Ret data, w') ->
  exists e rest,
    trace w' = e :: rest /\
    serves (nth (activeInstanceIndex w') PIPED_INSTANCES "" ++ path) e.
Proof.
  revert k w. induction left as [|left IH]; intros k w Hr; [discriminate|].
  rewrite rotation_step in Hr.
  pose proof (attempt_index H path (activeInstanceIndex w) k w) as Hi.
  pose proof (nativeFetch_head H
    (nth ((activeInstanceIndex w + k) mod List.length PIPED_INSTANCES)
         PIPED_INSTANCES "" ++ path) w) as Hh.
  fold (attempt H path (activeInstanceIndex w) k) in Hh.
  destruct (attempt H path (activeInstanceIndex w) k w) as [[d|e] w1];
    simpl in Hi, Hh.
  - injection Hr as <- <-. destruct Hh as [e [rest [Ht Hs]]].
    exists e, rest. rewrite adopt_trace, (adopt_cursor _ _ _ Hi). tauto.
  - eapply IH; eauto.
Qed.

(** X3: after a rotated fetch that succeeded, the cursor names the
    mirror that served the newest request of the trace, so the next
    call starts from the mirror that just answered. *)
Theorem fetchWithRotation_sticky (H : Host) (path : string) (w w' : World)
    (data : value) :
  fetchWithRotation H path w = (Ret data, w') ->
  exists e rest,
    trace w' = e :: rest /\
    serves (nth (activeInstanceIndex w') PIPED_INSTANCES "" ++ path) e.
Proof. apply rotation_loop_served. Qed.

Lemma fetchWithRotation_sticky_witness :
  exists e rest,
    trace (snd (fetchWithRotation (oneMirrorWeb VNull) "/streams/x" w0)) = e :: rest /\
    serves (nth 2 PIPED_INSTANCES "" ++ "/streams/x") e.
Proof.
  exact (fetchWithRotation_sticky (oneMirrorWeb VNull) "/streams/x" w0
           (snd (fetchWithRotation (oneMirrorWeb VNull) "/streams/x" w0))
           VNull eq_refl).
Defined.





(** *** What the public operations do to the world *)

Section Respects.
Variable R : World -> World -> Prop.
Hypothesis R_refl : forall w, R w w.
Hypothesis R_trans : forall w1 w2 w3, R w1 w2 -> R w2 w3 -> R w1 w3.

Lemma respects_ret {A} (a : A) : respects R (ret a).
Proof. intros w. apply R_refl. Qed.

Lemma respects_throw {A} (e : error) : respects R (@throw A e).
Proof. intros w. apply R_refl. Qed.

Lemma respects_lift {A} (x : outcome A) : respects R (lift x).
Proof. intros w. apply R_refl. Qed.

Lemma respects_bind {A B} (m : M A) (f : A -> M B) :
  respects R m -> (forall a, respects R (f a)) -> respects R (bind m f).
Proof.
  intros Hm Hf w. unfold bind. specialize (Hm w).
  destruct (m w) as [[a|e] w1]; simpl in *; [|exact Hm].
  eapply R_trans; [exact Hm|apply Hf].
Qed.

Lemma respects_try_catch {A} (m : M A) (h : error -> M A) :
  respects R m -> (forall e, respects R (h e)) -> respects R (try_catch m h).
Proof.
  intros Hm Hh w. unfold try_catch. specialize (Hm w).
  destruct (m w) as [[a|e] w1]; simpl in *; [exact Hm|].
  eapply R_trans; [exact Hm|apply Hh].
Qed.

End Respects.

Lemma continues_refl (w : World) : continues w w.
Proof. now exists []. Qed.

Lemma continues_trans (w1 w2 w3 : World) :
  continues w1 w2 -> continues w2 w3 -> continues w1 w3.
Proof.
  intros [n1 H1] [n2 H2]. exists (n2 ++ n1)%list. now rewrite H2, H1, app_assoc.
Qed.

Lemma settles_refl (w : World) : settles w w.
Proof. split; [apply continues_refl|now left]. Qed.

Lemma settles_trans (w1 w2 w3 : World) : settles w1 w2 -> settles w2 w3 -> settles w1 w3.
Proof.
  intros [H1 C1] [H2 C2]. split; [eapply continues_trans; eauto|].
  destruct C2 as [C2|C2]; [rewrite C2; exact C1|now right].
Qed.

Lemma keeps_cursor_refl (w : World) : keeps_cursor w w.
Proof. split; [apply continues_refl|reflexivity]. Qed.

Lemma keeps_cursor_trans (w1 w2 w3 : World) :
  keeps_cursor w1 w2 -> keeps_cursor w2 w3 -> keeps_cursor w1 w3.
Proof.
  intros [H1 C1] [H2 C2]. split; [eapply continues_trans; eauto|congruence].
Qed.

Lemma keeps_cursor_settles (w w' : World) : keeps_cursor w w' -> settles w w'.
Proof. intros [Hc Hi]. split; [exact Hc|now left]. Qed.

Lemma emit_keeps_cursor (e : event) (w : World) : keeps_cursor w (emit e w).
Proof. split; [now exists [e]|reflexivity]. Qed.

Lemma nativeFetch_keeps_cursor (H : Host) (url : string) :
  respects keeps_cursor (nativeFetch H url).
Proof.
  intros w. split; [|apply nativeFetch_index].
  destruct (nativeFetch_trace H url w) as [new [Ht _]]. now exists new.
Qed.

Lemma fetchWithRotation_settles (H : Host) (path : string) :
  respects settles (fetchWithRotation H path).
Proof.
  intros w.
  destruct (rotation_loop_evolves H path maxAttempts 0 w) as [new [[Ht Hc] _]].
  split; [now exists new|exact Hc].
Qed.

Lemma getTrending_catch_keeps (C : Constants) (isNative : bool) (platform : string) :
  respects keeps_cursor (getTrending_catch C isNative platform).
Proof.
  intros w. unfold getTrending_catch, bind, sleep, console_error, ret.
  repeat break_match; simpl;
    first [apply keeps_cursor_refl | apply emit_keeps_cursor].
Qed.

Lemma search_catch_keeps (E : Engine) (C : Constants) (isNative : bool)
    (query platform : string) :
  respects keeps_cursor (search_catch E C isNative query platform).
Proof.
  intros w. unfold search_catch, bind, sleep, console_error, ret.
  repeat break_match; simpl;
    first [apply keeps_cursor_refl | apply emit_keeps_cursor].
Qed.

Ltac respect_steps refl trans :=
  repeat first
    [ apply (respects_bind _ trans)
    | apply (respects_try_catch _ trans)
    | apply (respects_ret _ refl)
    | apply (respects_throw _ refl)
    | apply (respects_lift _ refl)
    | intro ].

Lemma weaken_respects {A} (m : M A) : respects keeps_cursor m -> respects settles m.
Proof. intros Hm w. apply keeps_cursor_settles, Hm. Qed.

(** X5: each of the four public operations only ever adds to the trace,
    and leaves the rotation cursor where it was or on an index of the
    pool; so a cursor inside the pool stays inside it across any
    sequence of calls. *)
Theorem service_settles (E : Engine) (H : Host) (C : Constants)
    (platform query id' : string) (country : option string) :
  respects settles (getTrending E H C platform country) /\
  respects settles (search E H C query platform) /\
  respects settles (getSuggestions E H query) /\
  respects settles (getStreamUrl H C id' platform).
Proof.
  pose proof settles_refl as Rr. pose proof settles_trans as Rt.
  assert (Hn : forall url, respects settles (nativeFetch H url))
    by (intros; apply weaken_respects, nativeFetch_keeps_cursor).
  pose proof (fetchWithRotation_settles H) as Hf.
  split; [|split; [|split]].
  - unfold getTrending, getTrending_try.
    apply (respects_try_catch _ Rt);
      [|intros; apply weaken_respects, getTrending_catch_keeps].
    repeat break_match; respect_steps Rr Rt; first [apply Hf | apply Hn].
  - unfold search, search_try.
    apply (respects_try_catch _ Rt);
      [|intros; apply weaken_respects, search_catch_keeps].
    repeat break_match; respect_steps Rr Rt; first [apply Hf | apply Hn].
  - unfold getSuggestions. break_match; respect_steps Rr Rt; apply Hf.
  - unfold getStreamUrl. repeat break_match; respect_steps Rr Rt; first [apply Hf | apply Hn].
Qed.

(** X6: only the rotation-capable provider moves the cursor: for every
    provider token other than "YouTube" and "All", [getTrending] and
    [search] leave it where it was, whether they succeed or fall back. *)
Theorem cursor_moves_only_by_rotation (E : Engine) (H : Host) (C : Constants)
    (platform query : string) (country : option string) :
  (platform =? "YouTube") || (platform =? "All") = false ->
  respects keeps_cursor (getTrending E H C platform country) /\
  respects keeps_cursor (search E H C query platform).
Proof.
  intros Hp.
  pose proof keeps_cursor_refl as Rr. pose proof keeps_cursor_trans as Rt.
  pose proof (nativeFetch_keeps_cursor H) as Hn.
  split.
  - unfold getTrending, getTrending_try. rewrite Hp.
    apply (respects_try_catch _ Rt); [|intros; apply getTrending_catch_keeps].
    repeat break_match; respect_steps Rr Rt; first [apply Hf | apply Hn].
  - unfold search, search_try. rewrite Hp.
    apply (respects_try_catch _ Rt); [|intros; apply search_catch_keeps].
    repeat break_match; respect_steps Rr Rt; first [apply Hf | apply Hn].
Qed.

Lemma cursor_moves_only_by_rotation_witness :
  activeInstanceIndex
    (snd (search asciiEngine offlineWeb sampleConstants "cat" "Dailymotion"
            {| activeInstanceIndex := 4; trace := [] |})) = 4%nat.
Proof.
  exact (proj2 (proj2 (cursor_moves_only_by_rotation asciiEngine offlineWeb
                         sampleConstants "Dailymotion" "cat" None eq_refl)
                  {| activeInstanceIndex := 4; trace := [] |})).
Defined.

(** *** Routing *)

(** X7: the token "All" is routed exactly like "YouTube", on the live
    path and on the fallback path alike. *)
Theorem all_is_youtube (E : Engine) (H : Host) (C : Constants)
    (query : string) (country : option string) (w : World) :
  getTrending E H C "All" country w = getTrending E H C "YouTube" country w /\
  search E H C query "All" w = search E H C query "YouTube" w.
Proof.
  unfold getTrending, search, try_catch, getTrending_try, search_try,
    getTrending_catch, search_catch, search_fallback_set.
  change ("All" =? "YouTube") with false. change ("All" =? "All") with true.
  change ("YouTube" =? "YouTube") with true.
  change ("All" =? "TikTok") with false. change ("YouTube" =? "TikTok") with false.
  change ("All" =? "Rumble") with false. change ("YouTube" =? "Rumble") with false.
  change ("All" =? "PeerTube") with false. change ("YouTube" =? "PeerTube") with false.
  split; reflexivity.
Qed.

(** X8: the providers without an adapter never touch the network, in any
    execution context.  Trending returns the TikTok and Rumble mock sets
    and, for "Bandcamp", the empty list; but [search] has no "Bandcamp"
    branch, so a Bandcamp search answers from the generic mock set. *)
Theorem static_providers (E : Engine) (H : Host) (C : Constants)
    (query : string) (country : option string) (w : World) :
  getTrending E H C "TikTok" country w = (Ret (map box (MOCK_TIKTOK_VIDEOS C)), w) /\
  getTrending E H C "Rumble" country w = (Ret (map box (MOCK_RUMBLE_VIDEOS C)), w) /\
  getTrending E H C "Bandcamp" country w = (Ret [], w) /\
  search E H C query "Bandcamp" w =
    (Ret (map box (filter (titleMatches E query) (MOCK_VIDEOS C))), w).
Proof. repeat split; reflexivity. Qed.

(** X9: in a non-native context a failed search never comes back empty
    when the provider's mock set has a record: it answers, after the
    delay, with records of that mock set only, at least one of them. *)
Theorem search_fallback_nonempty (E : Engine) (H : Host) (C : Constants)
    (query platform : string) (w w1 : World) (e : error) :
  isNativePlatform H = false ->
  search_try E H C query platform w = (Throw e, w1) ->
  exists l,
    search E H C query platform w = (Ret (map box l), emit (Sleep 800) w1) /\
    incl l (mock_set_for C platform) /\
    (mock_set_for C platform <> [] -> l <> []).
Proof.
  intros Hweb Hf. exists (search_fallback E C query platform).
  unfold search, try_catch. rewrite Hf, search_catch_returns, Hweb.
  split; [reflexivity|]. unfold search_fallback.
  destruct (filter (titleMatches E query) (mock_set_for C platform))
    as [|v l] eqn:Hfl.
  - split; [apply incl_refl|auto].
  - split; [|discriminate].
    rewrite <- Hfl. intros x Hx. apply filter_In in Hx. tauto.
Qed.

Lemma search_fallback_nonempty_witness :
  exists l,
    search asciiEngine offlineWeb sampleConstants "zebra" "Dailymotion" w0 =
      (Ret (map box l),
       emit (Sleep 800)
         (snd (search_try asciiEngine offlineWeb sampleConstants "zebra" "Dailymotion" w0))) /\
    incl l (mock_set_for sampleConstants "Dailymotion") /\
    (mock_set_for sampleConstants "Dailymotion" <> [] -> l <> []).
Proof.
  exact (search_fallback_nonempty asciiEngine offlineWeb sampleConstants
           "zebra" "Dailymotion" w0 _ (Error "Web Fetch Failed") eq_refl eq_refl).
Defined.

(** *** Stream resolution: failures *)

(** X10: [getStreamUrl] never throws, whatever the platform token, the
    id, the host and the payload. *)
Theorem getStreamUrl_never_throws (H : Host) (C : Constants)
    (id' platform : string) (w : World) :
  exists v w', getStreamUrl H C id' platform w = (Ret v, w').
Proof.
  unfold getStreamUrl, try_catch, bind, lift, ret.
  destruct (platform =? "YouTube").
  - destruct (fetchWithRotation H _ w) as [[data|e] w']; [|eauto].
    destruct (pickStream data); eauto.
  - repeat break_match; eauto.
Qed.

Lemma ofind_null_entry (pre post : list value) (x : value) :
  nullish x = true ->
  Forall (fun s => nullish s = false /\ av1080 s = false) pre ->
  ofind is1080 (pre ++ x :: post) = Throw TypeError.
Proof.
  intros Hx Hpre. induction Hpre as [|s pre [Hs Ha] _ IH]; simpl.
  - destruct x; simpl in *; try discriminate; reflexivity.
  - rewrite (is1080_av1080 s Hs), Ha. simpl. exact IH.
Qed.

(** X11: a payload of the wrong shape yields null, not an error and not
    a URL: when the payload is null, when [videoStreams] is something
    other than an array, and when the list holds a null entry that the
    search for a 1080p variant reaches - even if variants that qualify
    come after it. *)
Theorem getStreamUrl_malformed (H : Host) (C : Constants) (id' : string)
    (w w' : World) (data : value) :
  fetchWithRotation H ("/streams/" ++ id') w = (Ret data, w') ->
  (nullish data = true -> getStreamUrl H C id' "YouTube" w = (Ret VNull, w')) /\
  (nullish data = false -> truthy (prop data "hls") = false ->
   truthy (prop data "videoStreams") = true ->
   (forall items, prop data "videoStreams" <> VArr items) ->
   getStreamUrl H C id' "YouTube" w = (Ret VNull, w')) /\
  (forall pre x post,
     nullish data = false -> truthy (prop data "hls") = false ->
     prop data "videoStreams" = VArr (pre ++ x :: post) ->
     nullish x = true ->
     Forall (fun s => nullish s = false /\ av1080 s = false) pre ->
     getStreamUrl H C id' "YouTube" w = (Ret VNull, w')).
Proof.
  intros Hf. unfold getStreamUrl. rewrite String.eqb_refl.
  unfold try_catch, bind, lift. rewrite Hf.
  split; [|split].
  - intros Hd. destruct data; simpl in *; try discriminate; reflexivity.
  - intros Hd Hhls Hvs Hna. unfold pickStream, find_stream.
    rewrite !(get_prop data _ Hd). simpl. rewrite Hhls.
    unfold or_else. rewrite Hvs.
    destruct (prop data "videoStreams") as [| | | | |items|]; simpl;
      try reflexivity.
    exfalso. now apply (Hna items).
  - intros pre x post Hd Hhls Hvs Hx Hpre. unfold pickStream, find_stream.
    rewrite !(get_prop data _ Hd). simpl. rewrite Hhls, Hvs. simpl.
    rewrite (ofind_null_entry pre post x Hx Hpre). reflexivity.
Qed.

Lemma getStreamUrl_malformed_witness :
  getStreamUrl (onlineWeb brokenStreams) sampleConstants "abc" "YouTube" w0 =
    (Ret VNull, snd (fetchWithRotation (onlineWeb brokenStreams) "/streams/abc" w0)).
Proof.
  refine (proj2 (proj2 (getStreamUrl_malformed (onlineWeb brokenStreams)
            sampleConstants "abc" w0 _ brokenStreams eq_refl))
            [variant "720p" "https://cdn.example/720.mp4" false] VNull
            [variant "1080p" "https://cdn.example/1080.mp4" false]
            eq_refl eq_refl eq_refl eq_refl _).
  repeat constructor.
Defined.

(** *** Data mappers: whole payloads *)

Lemma omap_Forall2 {A B} (f : A -> outcome B) (l : list A) (rs : list B) :
  omap f l = Ret rs -> Forall2 (fun x r => f x = Ret r) l rs.
Proof.
  revert rs. induction l as [|x l IH]; simpl; intros rs Hr.
  - injection Hr as <-. constructor.
  - destruct (f x) as [y|] eqn:Hy; simpl in Hr; [|discriminate].
    destruct (omap f l) as [ys|]; simpl in Hr; [|discriminate].
    injection Hr as <-. constructor; auto.
Qed.

Lemma omap_throws {A B} (f : A -> outcome B) (l : list A) (x : A) :
  In x l -> (exists e, f x = Throw e) -> exists e, omap f l = Throw e.
Proof.
  intros Hin [e He]. induction l as [|y l IH]; [contradiction|]. simpl.
  destruct Hin as [->|Hin].
  - rewrite He. simpl. eauto.
  - destruct (f y); simpl; [|eauto].
    destruct (IH Hin) as [e' ->]. simpl. eauto.
Qed.

Lemma dailymotionRecord_platform (E : Engine) (v : value) (r : VideoObject) :
  dailymotionRecord E v = Ret r -> o_platform r = VStr "Dailymotion".
Proof.
  intros Hr. unfold dailymotionRecord in Hr. returned Hr.
  injection Hr as <-. reflexivity.
Qed.

Lemma peerTubeRecord_platform (E : Engine) (v : value) (r : VideoObject) :
  peerTubeRecord E v = Ret r -> o_platform r = VStr "PeerTube".
Proof.
  intros Hr. unfold peerTubeRecord in Hr. returned Hr.
  injection Hr as <-. reflexivity.
Qed.

Lemma map_payload (f : value -> outcome VideoObject) (tag key : string)
    (data : value) (rs : list VideoObject) :
  (forall v r, f v = Ret r -> o_platform r = VStr tag) ->
  (if negb (truthy data) then Ret []
   else let! list := get data key in
        if negb (truthy list) then Ret []
        else let! items := as_array list in omap f items) = Ret rs ->
  (rs = [] /\ (truthy data = false \/ truthy (prop data key) = false)) \/
  (exists items,
     prop data key = VArr items /\
     List.length rs = List.length items /\
     Forall2 (fun v r => f v = Ret r) items rs /\
     Forall (fun r => o_platform r = VStr tag) rs).
Proof.
  intros Htag Hr.
  destruct (truthy data) eqn:Hd; simpl in Hr.
  - rewrite (get_prop data key (truthy_nonnullish data Hd)) in Hr. simpl in Hr.
    destruct (truthy (prop data key)) eqn:Hl; simpl in Hr.
    + destruct (prop data key) as [| | | | |items|]; simpl in Hr; try discriminate.
      apply omap_Forall2 in Hr. right. exists items.
      split; [reflexivity|].
      split; [symmetry; exact (Forall2_length Hr)|]. split; [exact Hr|].
      induction Hr; constructor; eauto.
    + injection Hr as <-. left. auto.
  - injection Hr as <-. left. auto.
Qed.

(** X12: what [mapDmData] and [mapPeerTubeData] return is the list of
    the payload entry by entry, in order and of the same length, each
    record being what the mapper makes of that entry alone, and each
    tagged with the mapper's own platform whatever the payload says;
    the only other answer is the empty list, for a payload that is
    falsy or whose list is falsy. *)
Theorem mappers_pointwise (E : Engine) (data : value) (rs : list VideoObject) :
  (mapDmData E data = Ret rs ->
   (rs = [] /\ (truthy data = false \/ truthy (prop data "list") = false)) \/
   (exists items,
      prop data "list" = VArr items /\
      List.length rs = List.length items /\
      Forall2 (fun v r => dailymotionRecord E v = Ret r) items rs /\
      Forall (fun r => o_platform r = VStr "Dailymotion") rs)) /\
  (mapPeerTubeData E data = Ret rs ->
   (rs = [] /\ (truthy data = false \/ truthy (prop data "data") = false)) \/
   (exists items,
      prop data "data" = VArr items /\
      List.length rs = List.length items /\
      Forall2 (fun v r => peerTubeRecord E v = Ret r) items rs /\
      Forall (fun r => o_platform r = VStr "PeerTube") rs)).
Proof.
  split; intros Hr.
  - apply (map_payload (dailymotionRecord E) "Dailymotion" "list" data rs);
      [apply dailymotionRecord_platform|exact Hr].
  - apply (map_payload (peerTubeRecord E) "PeerTube" "data" data rs);
      [apply peerTubeRecord_platform|exact Hr].
Qed.

Lemma mappers_pointwise_witness :
  List.length (match mapDmData asciiEngine dmPayload with
               | Ret rs => rs
               | Throw _ => []
               end) = 2%nat /\
  Forall (fun r => o_platform r = VStr "Dailymotion")
    (match mapDmData asciiEngine dmPayload with
     | Ret rs => rs
     | Throw _ => []
     end).
Proof.
  destruct (proj1 (mappers_pointwise asciiEngine dmPayload
                     (match mapDmData asciiEngine dmPayload with
                      | Ret rs => rs
                      | Throw _ => []
                      end)) eq_refl)
    as [[_ [Hd|Hl]]|[items [Hi [Hlen [_ Htag]]]]];
    [discriminate Hd|discriminate Hl|].
  split; [|exact Htag].
  rewrite Hlen. injection Hi as <-. reflexivity.
Defined.

(** X13: the mappers are all or nothing.  A payload that is falsy, or
    whose list is missing or falsy, gives the empty list; a list that is
    truthy but not an array makes the mapper throw; and so does a single
    null entry in the list, which discards every other entry with it. *)
Theorem mappers_all_or_nothing (E : Engine) (data : value) :
  (truthy data = false \/ truthy (prop data "list") = false ->
   mapDmData E data = Ret []) /\
  (truthy data = false \/ truthy (prop data "data") = false ->
   mapPeerTubeData E data = Ret []) /\
  (truthy data = true -> truthy (prop data "list") = true ->
   (forall items, prop data "list" <> VArr items) ->
   mapDmData E data = Throw TypeError) /\
  (forall items x,
     truthy data = true -> In x items -> nullish x = true ->
     (prop data "list" = VArr items -> exists e, mapDmData E data = Throw e) /\
     (prop data "data" = VArr items -> exists e, mapPeerTubeData E data = Throw e)).
Proof.
  unfold mapDmData, mapPeerTubeData.
  split; [|split; [|split]].
  - intros [Hd|Hl]; destruct (truthy data) eqn:Ht; simpl; try discriminate;
      try reflexivity.
    rewrite (get_prop data _ (truthy_nonnullish data Ht)). simpl.
    now rewrite Hl.
  - intros [Hd|Hl]; destruct (truthy data) eqn:Ht; simpl; try discriminate;
      try reflexivity.
    rewrite (get_prop data _ (truthy_nonnullish data Ht)). simpl.
    now rewrite Hl.
  - intros Hd Hl Hna. rewrite Hd. simpl.
    rewrite (get_prop data _ (truthy_nonnullish data Hd)). simpl. rewrite Hl. simpl.
    destruct (prop data "list") as [| | | | |items|]; simpl; try reflexivity.
    exfalso. now apply (Hna items).
  - intros items x Hd Hin Hx. rewrite Hd. simpl.
    rewrite !(get_prop data _ (truthy_nonnullish data Hd)). simpl.
    split; intros ->; simpl; apply (omap_throws _ items x Hin).
    + unfold dailymotionRecord. destruct x; simpl in *; try discriminate; eauto.
    + unfold peerTubeRecord. destruct x; simpl in *; try discriminate; eauto.
Qed.

Lemma mappers_all_or_nothing_witness :
  exists e,
    mapPeerTubeData asciiEngine
      (VObj [("data", VArr [VObj [("uuid", VStr "u1")]; VNull])]) = Throw e.
Proof.
  refine (proj2 (proj2 (proj2 (proj2 (mappers_all_or_nothing asciiEngine
            (VObj [("data", VArr [VObj [("uuid", VStr "u1")]; VNull])]))))
            [VObj [("uuid", VStr "u1")]; VNull] VNull eq_refl _ eq_refl) eq_refl).
  simpl. tauto.
Defined.

(** *** Formatters on whole numbers *)

Lemma whole_numbers_In (lo : Z) (len : nat) (n : Z) :
  (lo <= n < lo + Z.of_nat len)%Z -> In n (whole_numbers lo len).
Proof.
  intros Hn. unfold whole_numbers. apply in_map_iff.
  exists (Z.to_nat (n - lo)). split; [lia|]. apply in_seq. lia.
Qed.

Lemma returns_eq (x : outcome string) (s : string) : returns x s = true -> x = Ret s.
Proof.
  destruct x; simpl; [|discriminate]. intros Hs. apply String.eqb_eq in Hs.
  now subst.
Qed.

Lemma formatViews_units_checked (E : Engine) :
  forallb (fun n => returns (formatViews E (VNum (of_Z n))) (decimal n))
          (whole_numbers 1 999) = true.
Proof. vm_compute. reflexivity. Qed.

(** X14: a whole number of views from 1 to 999 is printed as it is, in
    decimal digits and without a suffix. *)
Theorem formatViews_units (E : Engine) (n : Z) :
  (1 <= n <= 999)%Z -> formatViews E (VNum (of_Z n)) = Ret (decimal n).
Proof.
  intros Hn. apply returns_eq.
  apply (proj1 (forallb_forall _ _) (formatViews_units_checked E) n).
  apply whole_numbers_In. lia.
Qed.

Lemma formatViews_units_witness : formatViews asciiEngine (VNum 42) = Ret "42".
Proof. apply (formatViews_units asciiEngine 42). lia. Defined.

Lemma formatViews_rollover_checked (E : Engine) :
  forallb (fun n => returns (formatViews E (VNum (of_Z n))) "1000.0K")
          (whole_numbers 999950 50) = true.
Proof. vm_compute. reflexivity. Qed.

(** X15: the thousands do not roll over into millions by rounding: every
    whole number of views from 999950 to 999999 is printed "1000.0K". *)
Theorem formatViews_rollover (E : Engine) (n : Z) :
  (999950 <= n <= 999999)%Z -> formatViews E (VNum (of_Z n)) = Ret "1000.0K".
Proof.
  intros Hn. apply returns_eq.
  apply (proj1 (forallb_forall _ _) (formatViews_rollover_checked E) n).
  apply whole_numbers_In. lia.
Qed.

Lemma formatViews_rollover_witness :
  formatViews asciiEngine (VNum 999999) = Ret "1000.0K".
Proof. apply (formatViews_rollover asciiEngine 999999). lia. Defined.

Lemma formatDuration_seconds_checked (E : Engine) :
  forallb (fun n => returns (formatDuration E (VNum (of_Z n))) (clock n))
          (whole_numbers 1 3599) = true.
Proof. vm_compute. reflexivity. Qed.

Lemma formatDuration_minutes_checked (E : Engine) :
  forallb (fun k => returns (formatDuration E (VNum (of_Z (60 * k)))) (clock (60 * k)))
          (whole_numbers 60 1380) = true.
Proof. vm_compute. reflexivity. Qed.

(** X16: on a whole number of seconds below one hour, and on a whole
    number of minutes from one hour up to a day, [formatDuration] agrees
    with integer division: minutes and two-digit seconds below an hour,
    hours, two-digit minutes and two-digit seconds from an hour on, the
    leading unit never padded. *)
Theorem formatDuration_clock (E : Engine) (n : Z) :
  ((1 <= n < 3600)%Z -> formatDuration E (VNum (of_Z n)) = Ret (clock n)) /\
  ((60 <= n < 1440)%Z ->
   formatDuration E (VNum (of_Z (60 * n))) = Ret (clock (60 * n))).
Proof.
  split; intros Hn; apply returns_eq.
  - apply (proj1 (forallb_forall _ _) (formatDuration_seconds_checked E) n).
    apply whole_numbers_In. lia.
  - apply (proj1 (forallb_forall _ _) (formatDuration_minutes_checked E) n).
    apply whole_numbers_In. lia.
Qed.

Lemma formatDuration_clock_witness :
  formatDuration asciiEngine (VNum 605) = Ret "10:05" /\
  formatDuration asciiEngine (VNum 36300) = Ret "10:05:00".
Proof.
  split.
  - apply (proj1 (formatDuration_clock asciiEngine 605)). lia.
  - apply (proj2 (formatDuration_clock asciiEngine 605)). lia.
Defined.

(** X17: the formatters return on every primitive value, whatever its
    type; they throw on an object that has a key named [toString], which
    is how one such field makes a whole payload fail. *)
Theorem formatters_partial (E : Engine) (v : value) :
  (primitive v = true ->
   (exists s, formatViews E v = Ret s) /\ (exists s, formatDuration E v = Ret s)) /\
  (forall fields, v = VObj fields -> has_key "toString" fields = true ->
   formatViews E v = Throw TypeError /\ formatDuration E v = Throw TypeError).
Proof.
  split.
  - intros Hp. unfold formatViews, formatDuration.
    destruct v; try discriminate Hp; simpl;
      repeat (break_match; simpl); eauto.
  - intros fields -> Hk. unfold formatViews, formatDuration. simpl.
    rewrite Hk. split; reflexivity.
Qed.

Lemma formatters_partial_witness :
  (exists s, formatViews asciiEngine (VBool true) = Ret s) /\
  formatDuration asciiEngine (VObj [("toString", VNum 1)]) = Throw TypeError.
Proof.
  split.
  - exact (proj1 (proj1 (formatters_partial asciiEngine (VBool true)) eq_refl)).
  - exact (proj2 (proj2 (formatters_partial asciiEngine (VObj [("toString", VNum 1)]))
                    [("toString", VNum 1)] eq_refl eq_refl)).
Defined.

(** *** The error boundary *)

(** X18: before any error the boundary renders its children; once an
    error has been caught it renders the fallback screen, never the
    children, and the text handed to the paragraph is truthy: the
    error's own message when that is a non-empty string, and the default
    sentence when the message is absent or empty. *)
Theorem boundary_message (e : value) :
  ErrorBoundary.render ErrorBoundary.initial = Ret ErrorBoundary.Children /\
  exists m,
    ErrorBoundary.render (ErrorBoundary.getDerivedStateFromError e) =
      Ret (ErrorBoundary.Fallback m) /\
    truthy m = true /\
    (forall s, prop e "message" = VStr s -> s <> "" -> m = VStr s) /\
    (truthy (prop e "message") = false ->
     m = VStr ErrorBoundary.DEFAULT_MESSAGE).
Proof.
  split; [reflexivity|].
  exists (or_else (prop e "message") (VStr ErrorBoundary.DEFAULT_MESSAGE)).
  split; [destruct e; reflexivity|].
  unfold or_else. split; [|split].
  - destruct (truthy (prop e "message")) eqn:Ht; [exact Ht|reflexivity].
  - intros s Hs Hne. rewrite Hs. simpl.
    destruct (String.eqb_spec s ""); [contradiction|reflexivity].
  - intros Ht. now rewrite Ht.
Qed.

Lemma boundary_message_witness :
  exists m,
    ErrorBoundary.render
      (ErrorBoundary.getDerivedStateFromError (VObj [("message", VStr "")])) =
      Ret (ErrorBoundary.Fallback m) /\
    m = VStr ErrorBoundary.DEFAULT_MESSAGE.
Proof.
  destruct (proj2 (boundary_message (VObj [("message", VStr "")])))
    as [m [Hr [_ [_ Hd]]]].
  exists m. split; [exact Hr|exact (Hd eq_refl)].
Defined.

(** *** The application shell *)

Lemma getTrending_returns (E : Engine) (H : Host) (C : Constants)
    (platform : string) (country : option string) (w : World) :
  exists l w', getTrending E H C platform country w = (Ret l, w').
Proof.
  unfold getTrending, try_catch.
  destruct (getTrending_try E H C platform _ w) as [[l|e] w1]; [eauto|].
  rewrite getTrending_catch_returns. destruct (isNativePlatform H); eauto.
Qed.

Lemma search_returns (E : Engine) (H : Host) (C : Constants)
    (query platform : string) (w : World) :
  exists l w', search E H C query platform w = (Ret l, w').
Proof.
  unfold search, try_catch.
  destruct (search_try E H C query platform w) as [[l|e] w1]; [eauto|].
  rewrite search_catch_returns. destruct (isNativePlatform H); eauto.
Qed.

(** X19: [fetchData] never reaches its own [catch]: the service call it
    awaits always returns, so the feed ends up holding exactly what the
    service answered, with [loading] and [error] both false, and the
    fallback to the generic mock set written in [fetchData] is never
    taken.  In the search view with an empty query, and in every view
    but live sports, the call is [getTrending]. *)
Theorem fetchData_settles (E : Engine) (H : Host) (C : Constants)
    (s : App.Feed) (w : World) :
  (exists fetched w',
     App.dispatch E H C s w = (Ret fetched, w') /\
     App.fetchData E H C s w =
       ({| App.view := App.view s; App.searchQuery := App.searchQuery s;
           App.currentPlatform := App.currentPlatform s;
           App.country := App.country s;
           App.videos := fetched; App.loading := false;
           App.loadingText := App.action (App.view s) ++ "...";
           App.error := false |}, w')) /\
  (App.view s <> App.LIVE_SPORTS ->
   App.view s <> App.SEARCH \/ App.searchQuery s = "" ->
   App.dispatch E H C s =
   getTrending E H C (App.currentPlatform s) (Some (App.country s))).
Proof.
  split.
  - assert (Hd : exists l w', App.dispatch E H C s w = (Ret l, w')).
    { unfold App.dispatch. repeat break_match;
        first [apply search_returns | apply getTrending_returns]. }
    destruct Hd as [l [w' Hd]]. exists l, w'. split; [exact Hd|].
    unfold App.fetchData. rewrite Hd. reflexivity.
  - intros Hlive Hsearch. unfold App.dispatch.
    destruct (App.view s); simpl; try reflexivity; try congruence.
    destruct Hsearch as [Hs|Hs]; [congruence|]. rewrite Hs. reflexivity.
Qed.

Lemma fetchData_settles_witness :
  App.dispatch asciiEngine offlineNative sampleConstants sampleFeed =
  getTrending asciiEngine offlineNative sampleConstants "Rumble" (Some "US").
Proof.
  apply (proj2 (fetchData_settles asciiEngine offlineNative sampleConstants
                  sampleFeed w0)).
  - discriminate.
  - right. reflexivity.
Defined.

Section LibraryFacts.
Variables video ident : Type.
Variable id_of : video -> ident.
Variable same_id : ident -> ident -> bool.
Variable stringify : list video -> string.

Lemma firstn_incl {A} (n : nat) (l : list A) : incl (firstn n l) l.
Proof.
  intros x Hx. rewrite <- (firstn_skipn n l). apply in_or_app. now left.
Qed.

Lemma firstn_NoDup {A} (n : nat) (l : list A) : NoDup l -> NoDup (firstn n l).
Proof.
  intros Hl. rewrite <- (firstn_skipn n l) in Hl.
  now apply NoDup_app_remove_r in Hl.
Qed.

Lemma filter_map_NoDup (f : video -> bool) (l : list video) :
  NoDup (map id_of l) -> NoDup (map id_of (filter f l)).
Proof.
  induction l as [|x l IH]; simpl; intros Hl; [constructor|].
  inversion Hl as [|? ? Hx Hl']; subst.
  destruct (f x); simpl; [|auto].
  constructor; [|auto]. intros Hin. apply Hx.
  apply in_map_iff in Hin. destruct Hin as [y [Hy Hin]].
  apply filter_In in Hin. apply in_map_iff. exists y. tauto.
Qed.

Lemma existsb_filter_out (f : video -> bool) (l : list video) :
  existsb f (filter (fun x => negb (f x)) l) = false.
Proof.
  induction l as [|x l IH]; simpl; [reflexivity|].
  destruct (f x) eqn:Hx; simpl; [exact IH|]. now rewrite Hx.
Qed.

Lemma find_existsb (f : video -> bool) (l : list video) :
  existsb f l = match find f l with Some _ => true | None => false end.
Proof.
  induction l as [|x l IH]; simpl; [reflexivity|].
  destruct (f x); [reflexivity|exact IH].
Qed.

Lemma filter_all (f : video -> bool) (l : list video) :
  existsb f l = false -> filter (fun x => negb (f x)) l = l.
Proof.
  induction l as [|x l IH]; simpl; [reflexivity|].
  intros Hx. apply orb_false_iff in Hx. destruct Hx as [Hx Hl].
  rewrite Hx. simpl. now rewrite IH.
Qed.

(** X20: outside incognito mode [addToHistory] puts the video first,
    keeps at most 50 entries and at most one more than before, keeps
    only entries that were there or the video itself, and leaves no
    later entry with the video's id; in incognito mode it changes
    nothing, neither in memory nor in storage. *)
Theorem addToHistory_bounded (v : video) (s : App.Library video) :
  (App.incognito s = true ->
   App.addToHistory id_of same_id stringify v s = s) /\
  (App.incognito s = false ->
   exists rest,
     App.history (App.addToHistory id_of same_id stringify v s) = v :: rest /\
     (List.length (v :: rest) <= 50)%nat /\
     (List.length rest <= List.length (App.history s))%nat /\
     incl rest (App.history s) /\
     existsb (fun x => same_id (id_of x) (id_of v)) rest = false).
Proof.
  unfold App.addToHistory. split; intros Hi; rewrite Hi; [reflexivity|].
  cbn [App.history].
  set (others := filter (fun x => negb (same_id (id_of x) (id_of v))) (App.history s)).
  change (firstn 50 (v :: others)) with (v :: firstn 49 others).
  exists (firstn 49 others).
  split; [reflexivity|]. split; [|split; [|split]].
  - cbn [List.length]. pose proof (firstn_le_length 49 others). lia.
  - rewrite length_firstn.
    pose proof (filter_length_le (fun x => negb (same_id (id_of x) (id_of v)))
                  (App.history s)).
    fold others in H. lia.
  - intros x Hx. apply firstn_incl in Hx. apply filter_In in Hx. tauto.
  - destruct (existsb (fun x => same_id (id_of x) (id_of v)) (firstn 49 others))
      eqn:Hex; [|reflexivity].
    apply existsb_exists in Hex. destruct Hex as [x [Hx Hs]].
    apply firstn_incl in Hx.
    assert (Hin : existsb (fun x => same_id (id_of x) (id_of v)) others = true)
      by (apply existsb_exists; eauto).
    unfold others in Hin.
    now rewrite (existsb_filter_out (fun x => same_id (id_of x) (id_of v))) in Hin.
Qed.

Hypothesis same_id_eq : forall a b, same_id a b = true <-> a = b.

(** X21: if no two entries of the history share an id, no two entries
    share one after [addToHistory] either. *)
Theorem addToHistory_distinct (v : video) (s : App.Library video) :
  NoDup (map id_of (App.history s)) ->
  NoDup (map id_of (App.history (App.addToHistory id_of same_id stringify v s))).
Proof.
  intros Hs. unfold App.addToHistory.
  destruct (App.incognito s); [exact Hs|]. cbn [App.history].
  rewrite <- firstn_map. apply firstn_NoDup. simpl. constructor.
  - intros Hin. apply in_map_iff in Hin. destruct Hin as [x [Hx Hin]].
    apply filter_In in Hin. destruct Hin as [_ Hne].
    apply negb_true_iff in Hne.
    assert (Ht : same_id (id_of x) (id_of v) = true) by now apply same_id_eq.
    congruence.
  - now apply filter_map_NoDup.
Qed.

(** X22: [toggleBookmark] flips whether the video is bookmarked and
    leaves every video with another id as it was. *)
Theorem toggleBookmark_flips (v u : video) (s : App.Library video) :
  App.isBookmarked id_of same_id v (App.toggleBookmark id_of same_id stringify v s) =
    negb (App.isBookmarked id_of same_id v s) /\
  (id_of u <> id_of v ->
   App.isBookmarked id_of same_id u (App.toggleBookmark id_of same_id stringify v s) =
     App.isBookmarked id_of same_id u s).
Proof.
  unfold App.isBookmarked, App.toggleBookmark. cbn [App.bookmarks].
  rewrite (find_existsb (fun b => same_id (id_of b) (id_of v)) (App.bookmarks s)).
  split.
  - destruct (find _ (App.bookmarks s)) eqn:Hf.
    + now rewrite (existsb_filter_out (fun x => same_id (id_of x) (id_of v))).
    + simpl. rewrite (proj2 (same_id_eq (id_of v) (id_of v)) eq_refl).
      reflexivity.
  - intros Hne. destruct (find _ (App.bookmarks s)) eqn:Hf.
    + clear Hf. induction (App.bookmarks s) as [|b l IH]; simpl; [reflexivity|].
      destruct (same_id (id_of b) (id_of v)) eqn:Hb; simpl.
      * apply same_id_eq in Hb.
        destruct (same_id (id_of b) (id_of u)) eqn:Hu; [|exact IH].
        apply same_id_eq in Hu. congruence.
      * now rewrite IH.
    + simpl. destruct (same_id (id_of v) (id_of u)) eqn:Hu; [|reflexivity].
      apply same_id_eq in Hu. congruence.
Qed.

(** X23: bookmarking a video that was not bookmarked and toggling it
    again gives back the list of bookmarks as it was. *)
Theorem toggleBookmark_twice (v : video) (s : App.Library video) :
  App.isBookmarked id_of same_id v s = false ->
  App.bookmarks
    (App.toggleBookmark id_of same_id stringify v
       (App.toggleBookmark id_of same_id stringify v s)) = App.bookmarks s.
Proof.
  unfold App.isBookmarked. intros Hb.
  pose proof Hb as Hf.
  rewrite (find_existsb (fun b => same_id (id_of b) (id_of v))) in Hf.
  unfold App.toggleBookmark. cbn [App.bookmarks].
  destruct (find _ (App.bookmarks s)); [discriminate|].
  simpl. rewrite (proj2 (same_id_eq (id_of v) (id_of v)) eq_refl). simpl.
  now apply (filter_all (fun x => same_id (id_of x) (id_of v))).
Qed.

(** X24: the three operations keep the stored copies of history and
    bookmarks equal to the lists in memory. *)
Theorem library_in_sync (v : video) (s : App.Library video) :
  App.in_sync stringify s ->
  App.in_sync stringify (App.addToHistory id_of same_id stringify v s) /\
  App.in_sync stringify (App.clearHistory s) /\
  App.in_sync stringify (App.toggleBookmark id_of same_id stringify v s).
Proof.
  intros [Hh Hb]. unfold App.in_sync, App.addToHistory, App.clearHistory,
    App.toggleBookmark, App.getItem, App.setItem, App.removeItem in *.
  split; [|split].
  - destruct (App.incognito s); [tauto|]. simpl. tauto.
  - simpl. tauto.
  - simpl. tauto.
Qed.

End LibraryFacts.

Lemma sampleLibrary_same_id (a b : string) : (a =? b) = true <-> a = b.
Proof. apply String.eqb_eq. Qed.

Lemma addToHistory_bounded_witness :
  App.history (App.addToHistory id String.eqb (fun _ => "[]")
                 (mock "t1" "Dance Challenge" "TikTok" None) sampleLibrary) =
    [mock "t1" "Dance Challenge" "TikTok" None;
     mock "m1" "Big Buck Bunny" "YouTube" None].
Proof.
  destruct (proj2 (addToHistory_bounded VideoData string id String.eqb (fun _ => "[]")
                     (mock "t1" "Dance Challenge" "TikTok" None) sampleLibrary) eq_refl)
    as [rest [Hh _]].
  reflexivity.
Defined.

Lemma addToHistory_distinct_witness :
  NoDup (map id (App.history
    (App.addToHistory id String.eqb (fun _ => "[]")
       (mock "t1" "Dance Challenge" "TikTok" None) sampleLibrary))).
Proof.
  apply (addToHistory_distinct VideoData string id String.eqb (fun _ => "[]")
           sampleLibrary_same_id).
  simpl. repeat constructor; simpl; intuition discriminate.
Defined.

Lemma toggleBookmark_flips_witness :
  App.isBookmarked id String.eqb (mock "m2" "Sintel Trailer" "YouTube" None)
    (App.toggleBookmark id String.eqb (fun _ => "[]")
       (mock "m2" "Sintel Trailer" "YouTube" None) sampleLibrary) = false /\
  App.isBookmarked id String.eqb (mock "m1" "Big Buck Bunny" "YouTube" None)
    (App.toggleBookmark id String.eqb (fun _ => "[]")
       (mock "m2" "Sintel Trailer" "YouTube" None) sampleLibrary) = false.
Proof.
  pose proof (toggleBookmark_flips VideoData string id String.eqb (fun _ => "[]")
                sampleLibrary_same_id
                (mock "m2" "Sintel Trailer" "YouTube" None)
                (mock "m1" "Big Buck Bunny" "YouTube" None) sampleLibrary)
    as [Hv Hu].
  split; [exact Hv|]. apply Hu. discriminate.
Defined.

Lemma toggleBookmark_twice_witness :
  App.bookmarks
    (App.toggleBookmark id String.eqb (fun _ => "[]")
       (mock "t1" "Dance Challenge" "TikTok" None)
       (App.toggleBookmark id String.eqb (fun _ => "[]")
          (mock "t1" "Dance Challenge" "TikTok" None) sampleLibrary)) =
  App.bookmarks sampleLibrary.
Proof.
  apply (toggleBookmark_twice VideoData string id String.eqb (fun _ => "[]")
           sampleLibrary_same_id).
  reflexivity.
Defined.

Lemma library_in_sync_witness :
  App.in_sync (fun _ => "[]")
    (App.clearHistory
       (App.addToHistory id String.eqb (fun _ => "[]")
          (mock "t1" "Dance Challenge" "TikTok" None)
          {| App.history := []; App.bookmarks := []; App.incognito := false;
             App.storage := fun _ => None |})).
Proof.
  refine (proj1 (proj2 (library_in_sync VideoData string id String.eqb (fun _ => "[]")
            (mock "t1" "Dance Challenge" "TikTok" None) _ _))).
  refine (proj1 (library_in_sync VideoData string id String.eqb (fun _ => "[]")
            (mock "t1" "Dance Challenge" "TikTok" None) _ _)).
  unfold App.in_sync. simpl. tauto.
Defined.

(** *** Search and identifiers of the rotation-capable provider *)

Lemma ofilter_filter (p : value -> outcome bool) (q : value -> bool) (l : list value) :
  (forall s, nullish s = false -> p s = Ret (q s)) ->
  Forall (fun s => nullish s = false) l ->
  ofilter p l = Ret (filter q l).
Proof.
  intros Hp Hl. induction Hl as [|s l Hs _ IH]; simpl; [reflexivity|].
  rewrite (Hp s Hs), IH. simpl. destruct (q s); reflexivity.
Qed.

(** X25: a live search of the rotation-capable provider maps the entries
    tagged "stream" and nothing else, in order: entries of any other
    type are dropped before they are read, so a channel or playlist
    entry, whatever it lacks, cannot make the search fail. *)
Theorem search_keeps_streams (E : Engine) (H : Host) (C : Constants)
    (query q : string) (w w' : World) (data : value) (items : list value) :
  encodeURIComponent E query = Some q ->
  fetchWithRotation H ("/search?q=" ++ q ++ "&filter=all") w = (Ret data, w') ->
  prop data "items" = VArr items ->
  Forall (fun i => nullish i = false) items ->
  search_try E H C query "YouTube" w =
    (omap (youtubeRecord E) (filter is_stream items), w').
Proof.
  intros Hq Hf Hi Hitems. unfold search_try.
  change (("YouTube" =? "YouTube") || ("YouTube" =? "All")) with true. cbv iota.
  unfold bind, lift, encode. rewrite Hq, Hf.
  assert (Hd : nullish data = false)
    by (destruct data; simpl in Hi; try discriminate; reflexivity).
  rewrite (get_prop data _ Hd), Hi. simpl.
  rewrite (ofilter_filter _ is_stream items); [reflexivity| |exact Hitems].
  intros s Hs. rewrite (get_prop s _ Hs). reflexivity.
Qed.

Lemma search_keeps_streams_witness :
  exists r,
    search_try asciiEngine (onlineWeb searchPayload) sampleConstants "bunny" "YouTube" w0 =
      (Ret [r], snd (fetchWithRotation (onlineWeb searchPayload)
                       "/search?q=bunny&filter=all" w0)) /\
    o_id r = VStr "aqz-KE-bpKQ".
Proof.
  eexists. split.
  - refine (search_keeps_streams asciiEngine (onlineWeb searchPayload) sampleConstants
              "bunny" "bunny" w0 _ searchPayload _ eq_refl eq_refl eq_refl _).
    repeat constructor.
  - reflexivity.
Defined.

Lemma append_empty (s : string) : s ++ "" = s.
Proof. induction s; simpl; [reflexivity|]. now f_equal. Qed.

Lemma append_char (cur s : string) (c : ascii) :
  (cur ++ String c "") ++ s = cur ++ String c s.
Proof. induction cur; simpl; [reflexivity|]. now f_equal. Qed.

Lemma split_go_absent (sep s cur : string) :
  includes s sep = false -> split_go sep s 0 cur = [cur ++ s].
Proof.
  revert cur. induction s as [|c s IH]; intros cur Hs.
  - simpl. now rewrite append_empty.
  - cbn [includes] in Hs. apply orb_false_iff in Hs. destruct Hs as [Hp Hs].
    cbn [split_go]. rewrite Hp, (IH _ Hs), append_char. reflexivity.
Qed.

(** X26: the identifier of an entry is what follows the first "v=" of
    its [url]: for "/watch?v=" followed by an id that does not itself
    contain "v=" it is that id, and for a [url] without "v=" the
    identifier is undefined. *)
Theorem youtube_id (E : Engine) (v : value) (r : VideoObject) (url : string) :
  youtubeRecord E v = Ret r ->
  prop v "url" = VStr url ->
  (includes url "v=" = false -> o_id r = VUndefined) /\
  (forall ident, url = "/watch?v=" ++ ident -> includes ident "v=" = false ->
   o_id r = VStr ident).
Proof.
  intros Hr Hu. pose proof (returned_nonnullish _ _ _ _ Hr) as Hv.
  unfold youtubeRecord in Hr. rewrite !(get_prop v _ Hv), Hu in Hr.
  cbn [obind] in Hr. returned Hr. injection Hr as <-. cbn [o_id].
  split.
  - intros Hn. unfold split. rewrite (split_go_absent _ _ _ Hn). reflexivity.
  - intros ident -> Hn. unfold split. cbn.
    rewrite (split_go_absent _ _ _ Hn).
    assert (Hp : String.prefix "" ident = true) by (destruct ident; reflexivity).
    rewrite Hp. reflexivity.
Qed.

Lemma youtube_id_witness :
  match youtubeRecord asciiEngine trendingItem with
  | Ret r => o_id r = VStr "aqz-KE-bpKQ"
  | Throw _ => False
  end.
Proof.
  destruct (youtubeRecord asciiEngine trendingItem) as [r|e] eqn:Hr;
    [|vm_compute in Hr; discriminate Hr].
  exact (proj2 (youtube_id asciiEngine trendingItem r "/watch?v=aqz-KE-bpKQ" Hr eq_refl)
           "aqz-KE-bpKQ" eq_refl eq_refl).
Defined.
